(** * chainer-glow: the training script and its optimizer wrapper

    A shallow embedding of [run/optimizer.py] and [run/train.py].

    Conventions of the embedding:
    - Python [int] is [Z]; [%] on integers is [Z.modulo] (both take the sign
      of the divisor).
    - Python [float] (and NumPy [float32]) is idealised as an exact rational
      [Q] in the learning-rate schedule and the image preprocessing, and as a
      real [R] in the loss, where [math.log] occurs.  Rounding is not
      modelled.
    - A Python exception is a value [Raise e] of the [result] type.
    - Calls into Chainer, NumPy, CuPy and the [glow] package are taken to
      return normally; the operating-system and file calls ([os.mkdir],
      [Image.open], [np.load]) may raise. *)

From Stdlib Require Import ZArith QArith Qround Qpower Qabs.
From Stdlib Require Import Reals Lra.
From Stdlib Require Import String Bool Lia Lqa List Permutation.
Import ListNotations.

(** ** Exceptions and results *)

Inductive exn : Type :=
| ZeroDivisionError
| NotImplementedError
| AssertionError
| OSError (errno : Z)
| ValueError.

Inductive result (A : Type) : Type :=
| Ok (a : A)
| Raise (e : exn).

Arguments Ok {A} a.
Arguments Raise {A} e.

Definition bind {A B : Type} (m : result A) (k : A -> result B) : result B :=
  match m with
  | Ok a => k a
  | Raise e => Raise e
  end.

Notation "x <- m ;; k" := (bind m (fun x => k))
  (at level 61, m at next level, right associativity).

(** Strict comparison of rationals as a boolean, for [a < b] in the source. *)
Definition Qltb (x y : Q) : bool := negb (Qle_bool y x).

(** ** run/optimizer.py *)

Module Optimizer.

(** The state of [chainer.optimizers.Adam] that the wrapper touches: the
    hyperparameters, the update counter [t] and the parameters of the target
    link, whose type is left open.  [alpha] is read as [optimizer.alpha] and
    written as [optimizer.hyperparam.alpha]; Chainer makes the first a proxy
    of the second, so they are one field. *)
Record Adam (Params : Type) : Type := mkAdam {
  alpha : Q;
  beta1 : Q;
  beta2 : Q;
  adam_eps : Q;
  t : Z;
  target : Params
}.

Arguments mkAdam {Params}.
Arguments alpha {Params}.
Arguments beta1 {Params}.
Arguments beta2 {Params}.
Arguments adam_eps {Params}.
Arguments t {Params}.
Arguments target {Params}.

(** The attributes of [self] that [mu_s] reads. *)
Record Cycle : Type := mkCycle {
  mu_i : Q;
  mu_f : Q;
  n : Z
}.

Record Optimizer (Params : Type) : Type := mkOptimizer {
  cycle :> Cycle;
  beta_1 : Q;
  beta_2 : Q;
  eps : Q;
  optimizer : Adam Params
}.

Arguments mkOptimizer {Params}.
Arguments cycle {Params}.
Arguments beta_1 {Params}.
Arguments beta_2 {Params}.
Arguments eps {Params}.
Arguments optimizer {Params}.

(** [Optimizer.mu_s]: the cyclical learning rate.  [training_step % self.n]
    raises [ZeroDivisionError] when [self.n] is zero. *)
Definition mu_s (self : Cycle) (training_step : Z) : result Q :=
  if (n self =? 0)%Z then Raise ZeroDivisionError
  else
    let step_in_cycle_num := (training_step mod n self)%Z in
    if Qltb (inject_Z step_in_cycle_num) (inject_Z (n self) / 2) then
      Ok (mu_f self + (mu_i self - mu_f self) * 2
                      * (inject_Z step_in_cycle_num / inject_Z (n self)))
    else
      Ok (mu_f self + (mu_i self - mu_f self) * 2
                      * (1 - inject_Z step_in_cycle_num / inject_Z (n self))).

Section Wrapper.

Context {Params : Type}.

(** One step of the Adam rule on the parameters of the target link, given
    the hyperparameters and the new value of the counter.  It belongs to
    Chainer and is left open. *)
Variable adam_rule : Q -> Q -> Q -> Q -> Z -> Params -> Params.

(** [chainer.optimizers.Adam.update]: the counter advances and the rule is
    applied with the hyperparameters the optimizer holds at that time. *)
Definition Adam_update (o : Adam Params) : Adam Params :=
  let t' := (t o + 1)%Z in
  mkAdam (alpha o) (beta1 o) (beta2 o) (adam_eps o) t'
         (adam_rule (alpha o) (beta1 o) (beta2 o) (adam_eps o) t' (target o)).

(** [self.optimizer.hyperparam.alpha = v]. *)
Definition set_alpha (o : Adam Params) (v : Q) : Adam Params :=
  mkAdam v (beta1 o) (beta2 o) (adam_eps o) (t o) (target o).

(** [Optimizer.__init__]. *)
Definition __init__ (model_parameters : Params)
           (mu_i mu_f : Q) (n : Z) (beta_1 beta_2 eps : Q)
  : result (Optimizer Params) :=
  let self := mkCycle mu_i mu_f n in
  lr <- mu_s self 0 ;;
  Ok (mkOptimizer self beta_1 beta_2 eps
                  (mkAdam lr beta_1 beta_2 eps 0 model_parameters)).

(** The property [Optimizer.learning_rate]. *)
Definition learning_rate (self : Optimizer Params) : Q :=
  alpha (optimizer self).

(** [Optimizer.anneal_learning_rate]. *)
Definition anneal_learning_rate (self : Optimizer Params) (training_step : Z)
  : result (Optimizer Params) :=
  lr <- mu_s self training_step ;;
  Ok (mkOptimizer (cycle self) (beta_1 self) (beta_2 self) (eps self)
                  (set_alpha (optimizer self) lr)).

(** [Optimizer.update]. *)
Definition update (self : Optimizer Params) (training_step : Z)
  : result (Optimizer Params) :=
  let self' := mkOptimizer (cycle self) (beta_1 self) (beta_2 self) (eps self)
                           (Adam_update (optimizer self)) in
  anneal_learning_rate self' training_step.

(** The calls [optimizer.update(s)] of a training run, one per batch, for
    the training steps [s] in order. *)
Fixpoint updates (self : Optimizer Params) (training_steps : list Z)
  : result (Optimizer Params) :=
  match training_steps with
  | [] => Ok self
  | s :: rest => self' <- update self s ;; updates self' rest
  end.

End Wrapper.

(** The default arguments of [Optimizer.__init__]. *)
Definition default_mu_i : Q := 3 * (1 # 1000).
Definition default_mu_f : Q := 1 * (1 # 10000).
Definition default_n : Z := 10000.
Definition default_beta_1 : Q := 9 # 10.
Definition default_beta_2 : Q := 99 # 100.
Definition default_eps : Q := 1 # 100000000.

Definition default_cycle : Cycle :=
  mkCycle default_mu_i default_mu_f default_n.

(** A stand-in for the Adam rule on a model of one parameter, to run the
    wrapper on: plain gradient descent on a gradient that is always 1. *)
Definition sample_rule (a b1 b2 e : Q) (t : Z) (p : Q) : Q := p - a.

(** The optimizer the default arguments build over that model, its one
    parameter being 1. *)
Definition sample_optimizer : Optimizer Q :=
  mkOptimizer default_cycle default_beta_1 default_beta_2 default_eps
              (mkAdam default_mu_f default_beta_1 default_beta_2 default_eps
                      0 1).

End Optimizer.


(** ** run/train.py *)

Module Train.

(** *** Arrays *)

(** A NumPy array: its shape and its entries by multi-index.  Only the
    entries whose index lies within the shape are meaningful. *)
Record ndarray : Type := mkArray {
  shape : list nat;
  item : list nat -> Q
}.

Definition ndim (a : ndarray) : nat := length (shape a).

(** The multi-indices of an array of the given shape. *)
Definition in_bounds (idx shp : list nat) : Prop := Forall2 lt idx shp.

(** An operation applied entry by entry (broadcasting of a scalar). *)
Definition map_array (f : Q -> Q) (a : ndarray) : ndarray :=
  mkArray (shape a) (fun idx => f (item a idx)).

(** The position of [m] in [axes]. *)
Fixpoint index_of (m : nat) (axes : list nat) : nat :=
  match axes with
  | [] => 0
  | x :: rest => if (x =? m)%nat then 0%nat else S (index_of m rest)
  end.

(** [a.transpose(axes)], for [axes] a permutation of [range(a.ndim)] (as it
    is at both calls in [preprocess]): axis [k] of the result is axis
    [axes[k]] of [a]. *)
Definition transpose (a : ndarray) (axes : list nat) : ndarray :=
  mkArray
    (map (fun k => nth k (shape a) 0%nat) axes)
    (fun idx =>
       item a (map (fun m => nth (index_of m axes) idx 0%nat)
                   (seq 0 (length axes)))).

(** [2**k] for an integer [k]. *)
Definition pow2 (k : Z) : Q := Qpower 2 k.

(** [np.floor]. *)
Definition floor (v : Q) : Q := inject_Z (Qfloor v).

(** [preprocess]. *)
Definition preprocess (image : ndarray) (num_bits_x : Z) : result ndarray :=
  let num_bins_x := pow2 num_bits_x in
  let image :=
    if (num_bits_x <? 8)%Z
    then map_array (fun v => floor (v / pow2 (8 - num_bits_x))) image
    else image in
  let image := map_array (fun v => v / num_bins_x - (1 # 2)) image in
  if (ndim image =? 3)%nat then Ok (transpose image [2; 0; 1]%nat)
  else if (ndim image =? 4)%nat then Ok (transpose image [0; 3; 1; 2]%nat)
  else Raise NotImplementedError.

(** The value a pixel [v] is normalized to: quantized by [floor] to
    [2**num_bits_x] bins when [num_bits_x < 8], divided by [2**num_bits_x]
    and shifted by [-0.5]. *)
Definition normalize (num_bits_x : Z) (v : Q) : Q :=
  (if (num_bits_x <? 8)%Z then floor (v / pow2 (8 - num_bits_x)) else v)
  / pow2 num_bits_x - (1 # 2).

(** Two arrays to run [preprocess] on: a 1 x 2 image of three channels, and
    a row of four numbers. *)
Definition sample_image : ndarray :=
  mkArray [1; 2; 3]%nat
          (fun idx => match idx with
                      | [_; j; k] => inject_Z (Z.of_nat (100 * j + 50 * k + 5))
                      | _ => 0
                      end).

Definition sample_row : ndarray :=
  mkArray [4]%nat (fun _ => 7).

(** *** The command line and the environment *)

Record Args : Type := mkArgs {
  dataset_path : string;
  dataset_format : string;
  snapshot_path : string;
  batch_size : Z;
  gpu_device : Z;
  total_iteration : Z;
  depth_per_level : Z;
  levels : Z;
  nn_hidden_channels : Z;
  num_bits_x : Z;
  squeeze_factor : Z;
  lu_decomposition : bool;
  regularize_z : bool
}.

(** What [main] observes of its environment. *)
Record World : Type := mkWorld {
  (** the outcome of [os.mkdir(path)] *)
  os_mkdir : string -> result unit;
  (** the paths [Path(dataset_path).glob("*.ext")] yields *)
  glob : string -> string -> list string;
  (** the outcome of [Image.open] or [np.load] on a path, as an array *)
  read_array : string -> result ndarray;
  (** [encoder.need_initialize] *)
  need_initialize : bool;
  (** [len(iterator)], the number of batches one pass over
      [glow.dataset.Iterator(dataset, batch_size)] yields, from
      [len(dataset)] and the batch size *)
  iterator_len : nat -> Z -> nat
}.

(** The calls of [main] that leave a mark outside it, in order. *)
Inductive event : Type :=
| Mkdir (path : string)
| UseDevice (device : Z)
| Load (filepath : string)
| SaveHyperparams (path : string)
| NewGlow (path : string)
| NewOptimizer
| InitActnorm
| Step (iteration batch_index : nat) (training_step : Z)
| Summary (iteration : nat)
| Save (path : string).

(** A computation of [main]: the events so far and how it ended. *)
Definition M (A : Type) : Type := (list event * result A)%type.

Definition ret {A : Type} (a : A) : M A := ([], Ok a).

Definition raise {A : Type} (e : exn) : M A := ([], Raise e).

Definition tell (evs : list event) : M unit := (evs, Ok tt).

Definition lift {A : Type} (r : result A) : M A := ([], r).

Definition bindM {A B : Type} (m : M A) (k : A -> M B) : M B :=
  match m with
  | (tr, Ok a) => let (tr', r) := k a in (tr ++ tr', r)
  | (tr, Raise e) => (tr, Raise e)
  end.

Notation "x <~ m ;; k" := (bindM m (fun x => k))
  (at level 61, m at next level, right associativity).

(** [assert b]. *)
Definition assert (b : bool) : M unit :=
  if b then ret tt else raise AssertionError.

(** [try: m  except: pass]. *)
Definition try_except_pass (m : M unit) : M unit :=
  match m with
  | (tr, Ok u) => (tr, Ok u)
  | (tr, Raise _) => (tr, Ok tt)
  end.

(** *** main *)

(** The two loading loops of [main] ([Image.open] for png, [np.load] for
    npy): each file is read, preprocessed and appended. *)
Fixpoint load_images (w : World) (num_bits_x : Z) (files : list string)
  : M (list ndarray) :=
  match files with
  | [] => ret []
  | filepath :: rest =>
      _ <~ tell [Load filepath] ;;
      image <~ lift (read_array w filepath) ;;
      image <~ lift (preprocess image num_bits_x) ;;
      images <~ load_images w num_bits_x rest ;;
      ret (image :: images)
  end.

(** The body of the inner loop for one batch: forward pass, loss, backward
    pass and [optimizer.update(current_training_step)], then the snapshot
    every hundredth batch. *)
Definition train_batch (a : Args) (iteration batch_index : nat)
           (current_training_step : Z) : list event :=
  Step iteration batch_index current_training_step
  :: (if ((Z.of_nat batch_index + 1) mod 100 =? 0)%Z
      then [Save (snapshot_path a)] else []).

(** [for batch_index, data_indices in enumerate(iterator)]. *)
Fixpoint train_batches (a : Args) (iteration : nat) (batches : list nat)
         (current_training_step : Z) : list event * Z :=
  match batches with
  | [] => ([], current_training_step)
  | batch_index :: rest =>
      let evs := train_batch a iteration batch_index current_training_step in
      let (evs', s) :=
        train_batches a iteration rest (current_training_step + 1)%Z in
      (evs ++ evs', s)
  end.

(** One iteration of the outer loop. *)
Definition train_iteration (a : Args) (num_batches : nat) (iteration : nat)
           (current_training_step : Z) : list event * Z :=
  let (evs, s) :=
    train_batches a iteration (seq 0 num_batches) current_training_step in
  (evs ++ [Summary iteration; Save (snapshot_path a)], s).

(** [for iteration in range(args.total_iteration)]. *)
Fixpoint training_loop (a : Args) (num_batches : nat) (iterations : list nat)
         (current_training_step : Z) : list event * Z :=
  match iterations with
  | [] => ([], current_training_step)
  | iteration :: rest =>
      let (evs, s) :=
        train_iteration a num_batches iteration current_training_step in
      let (evs', s') := training_loop a num_batches rest s in
      (evs ++ evs', s')
  end.

(** [range(k)] for an integer [k]. *)
Definition range (k : Z) : list nat := seq 0 (Z.to_nat k).

Definition string_in (s : string) (l : list string) : bool :=
  existsb (String.eqb s) l.

(** [images.shape[1]] of the arrays stacked by [np.asanyarray(images)]: the
    first dimension of each array. *)
Definition stacked_shape1 (images : list ndarray) : nat :=
  match images with
  | [] => 0%nat
  | image :: _ => nth 0 (shape image) 0%nat
  end.

(** [main]. *)
Definition main (a : Args) (w : World) : M unit :=
  _ <~ try_except_pass
         (_ <~ tell [Mkdir (snapshot_path a)] ;;
          lift (os_mkdir w (snapshot_path a))) ;;
  let using_gpu := (gpu_device a >=? 0)%Z in
  _ <~ (if using_gpu then tell [UseDevice (gpu_device a)] else ret tt) ;;
  _ <~ assert (string_in (dataset_format a) ["png"; "npy"]%string) ;;
  let files := glob w (dataset_path a) (dataset_format a) in
  num_images <~
    (if String.eqb (dataset_format a) "png" then
       images <~ load_images w (num_bits_x a) files ;;
       _ <~ assert (0 <? length images)%nat ;;
       ret (length images)
     else if String.eqb (dataset_format a) "npy" then
       images <~ load_images w (num_bits_x a) files ;;
       _ <~ assert (0 <? length images)%nat ;;
       let num_files := length images in
       ret (num_files * stacked_shape1 images)%nat
     else raise NotImplementedError) ;;
  let num_batches := iterator_len w num_images (batch_size a) in
  _ <~ tell [SaveHyperparams (snapshot_path a);
             NewGlow (snapshot_path a);
             NewOptimizer] ;;
  _ <~ (if need_initialize w
        then match seq 0 num_batches with
             | [] => ret tt
             | _ :: _ => tell [InitActnorm]
             end
        else ret tt) ;;
  let current_training_step := 0%Z in
  tell (fst (training_loop a num_batches (range (total_iteration a))
                           current_training_step)).

(** *** Reading the trace of [main] *)


Definition is_save (e : event) : bool :=
  match e with
  | Save _ => true
  | _ => false
  end.




(** The events of [main] up to the check of the dataset format. *)
Definition before_assert (a : Args) : list event :=
  Mkdir (snapshot_path a)
  :: (if (gpu_device a >=? 0)%Z then [UseDevice (gpu_device a)] else []).

(** A run to evaluate [main] on: one png file, the CPU, two iterations of
    [batches] batches each, in a directory [os.mkdir] fails on because it
    exists already. *)
Definition sample_args : Args :=
  mkArgs "data" "png" "snapshot" 32 (-1) 2 32 5 512 8 2 false false.

Definition sample_world (batches : nat) : World :=
  mkWorld (fun _ => Raise (OSError 17))
          (fun _ _ => ["data/0.png"%string])
          (fun _ => Ok sample_image)
          false
          (fun _ _ => batches).

(** The same run asked for jpg files, and an environment whose dataset
    directory is empty. *)
Definition jpg_args : Args :=
  mkArgs "data" "jpg" "snapshot" 32 0 2 32 5 512 8 2 false false.

Definition empty_world : World :=
  mkWorld (fun _ => Ok tt) (fun _ _ => []) (fun _ => Raise (OSError 2))
          true (fun _ _ => 0%nat).


End Train.


(** *** The loss of one batch ([main], inside the inner loop) *)

Module Loss.

Section Batch.

Local Open Scope R_scope.

(** Chainer arrays, and the two Chainer functions the loss is built from
    (each returns a scalar, summed over its input). *)
Variable Tensor : Type.
Variable gaussian_nll : Tensor -> Tensor -> Tensor -> R.
Variable gaussian_kl_divergence : Tensor -> Tensor -> R.

(** The body of [for (zi, mean, ln_var) in factorized_z_distribution],
    on the pair [(kld, negative_log_likelihood)]. *)
Definition accumulate (regularize_z : bool) (acc : R * R)
           (z : Tensor * Tensor * Tensor) : R * R :=
  let '(kld, negative_log_likelihood) := acc in
  let '(zi, mean, ln_var) := z in
  let negative_log_likelihood :=
    negative_log_likelihood + gaussian_nll zi mean ln_var in
  let kld :=
    if regularize_z then kld + gaussian_kl_divergence mean ln_var else kld in
  (kld, negative_log_likelihood).

(** The loss of a batch, from the output of [encoder.forward_step(x)]:
    the factorized latent distribution and the log-determinant. *)
Definition batch_loss (regularize_z : bool) (batch_size : Z) (num_bits_x : Z)
           (num_pixels : Z)
           (factorized_z_distribution : list (Tensor * Tensor * Tensor))
           (logdet : R) : R :=
  let num_bins_x := powerRZ 2 num_bits_x in
  let denom := ln 2 * IZR num_pixels in
  let logdet := logdet - ln num_bins_x * IZR num_pixels in
  let '(kld, negative_log_likelihood) :=
    fold_left (accumulate regularize_z) factorized_z_distribution (0, 0) in
  let loss := (negative_log_likelihood + kld) / IZR batch_size - logdet in
  loss / denom.

(** The sum of a list of reals. *)
Definition Rsum (l : list R) : R := fold_right Rplus 0 l.

(** The sums the loss is made of, over the factorized latent variables. *)
Definition sum_nll (fz : list (Tensor * Tensor * Tensor)) : R :=
  Rsum (map (fun z : Tensor * Tensor * Tensor =>
               let '(zi, mean, ln_var) := z in gaussian_nll zi mean ln_var)
            fz).

Definition sum_kld (fz : list (Tensor * Tensor * Tensor)) : R :=
  Rsum (map (fun z : Tensor * Tensor * Tensor =>
               let '(_, mean, ln_var) := z in gaussian_kl_divergence mean ln_var)
            fz).

(** The [kld] the loop leaves. *)
Definition batch_kld (regularize_z : bool)
           (factorized_z_distribution : list (Tensor * Tensor * Tensor)) : R :=
  fst (fold_left (accumulate regularize_z) factorized_z_distribution (0, 0)).

End Batch.

End Loss.


(** ** run/train.py: the functions around [main] *)

Module Images.

Import Train.

(** An array of [uint8]: what [np.uint8] returns and what an image file
    holds. *)
Record uint8_array : Type := mkUint8 {
  u8_shape : list nat;
  u8_item : list nat -> Z
}.

(** [IndexError] beside the exceptions met so far. *)
Inductive exception : Type :=
| IndexError
| Exn (e : exn).

Inductive attempt (A : Type) : Type :=
| Returned (a : A)
| Raised (e : exception).

Arguments Returned {A} a.
Arguments Raised {A} e.

(** [array[m]] for an index [m >= 0]: the sub-array at [m] along the first
    axis; [IndexError] when the array has no axis or [m] is out of it. *)
Definition select (array : ndarray) (m : nat) : attempt ndarray :=
  match shape array with
  | [] => Raised IndexError
  | d :: rest =>
      if (m <? d)%nat
      then Returned (mkArray rest (fun idx => item array (m :: idx)))
      else Raised IndexError
  end.

(** [np.maximum], [np.minimum] and [np.clip] on an entry. *)
Definition maximum (x y : Q) : Q := if Qltb x y then y else x.

Definition minimum (x y : Q) : Q := if Qltb y x then y else x.

Definition clip (x a_min a_max : Q) : Q := minimum (maximum x a_min) a_max.

(** [np.uint8] on an entry that [clip] has brought within [0, 255]: the
    fraction is dropped. *)
Definition uint8 (x : Q) : Z := if Qltb x 0 then Qceiling x else Qfloor x.

(** The entry-wise part of [make_uint8]:
    [uint8 (clip (floor ((x + 0.5) * bins) * (255 / bins), 0, 255))]. *)
Definition to_uint8 (bins : Z) (array : ndarray) : uint8_array :=
  mkUint8 (shape array)
          (fun idx =>
             uint8 (clip (floor ((item array idx + (1 # 2)) * inject_Z bins)
                          * (255 / inject_Z bins))
                         0 255)).

(** [make_uint8].  [array.shape[2]] raises [IndexError] on an array of
    fewer than three axes, [transpose(1, 2, 0)] raises [ValueError] on one
    of more than three, and [255 / bins] raises [ZeroDivisionError]. *)
Definition make_uint8 (array : ndarray) (bins : Z) : attempt uint8_array :=
  match (if (ndim array =? 4)%nat then select array 0 else Returned array) with
  | Raised e => Raised e
  | Returned array =>
      match nth_error (shape array) 2 with
      | None => Raised IndexError
      | Some d =>
          if (d =? 3)%nat then
            if (bins =? 0)%Z then Raised (Exn ZeroDivisionError)
            else Returned (to_uint8 bins array)
          else if (ndim array =? 3)%nat then
            if (bins =? 0)%Z then Raised (Exn ZeroDivisionError)
            else Returned (to_uint8 bins (transpose array [1; 2; 0]%nat))
          else Raised (Exn ValueError)
      end
  end.

(** [.astype("float32")] on the array of an image file. *)
Definition astype_float32 (u : uint8_array) : ndarray :=
  mkArray (u8_shape u) (fun idx => inject_Z (u8_item u idx)).

(** An image of two rows, four columns and three channels, to run the
    conversions on. *)
Definition sample_picture : uint8_array :=
  mkUint8 [2; 4; 3]%nat
          (fun idx => match idx with
                      | [i; j; k] => Z.of_nat (100 * i + 30 * j + 20 * k + 7)
                      | _ => 0%Z
                      end).

(** The same image cut to three columns, and a batch of two images of one
    row and two columns. *)
Definition narrow_picture : uint8_array :=
  mkUint8 [2; 3; 3]%nat (u8_item sample_picture).

Definition sample_batch : ndarray :=
  mkArray [2; 1; 2; 3]%nat
          (fun idx => match idx with
                      | [m; _; j; k] =>
                          inject_Z (Z.of_nat (100 * m + 40 * j + 10 * k))
                      | _ => 0
                      end).

End Images.


(** ** run/train.py: [main] with the division that ends an iteration *)

Module Script.

Import Train.

(** [main] up to the training loop, lines 90 to 165; it returns
    [len(iterator)]. *)
Definition setup (a : Args) (w : World) : M nat :=
  _ <~ try_except_pass
         (_ <~ tell [Mkdir (snapshot_path a)] ;;
          lift (os_mkdir w (snapshot_path a))) ;;
  let using_gpu := (gpu_device a >=? 0)%Z in
  _ <~ (if using_gpu then tell [UseDevice (gpu_device a)] else ret tt) ;;
  _ <~ assert (string_in (dataset_format a) ["png"; "npy"]%string) ;;
  let files := glob w (dataset_path a) (dataset_format a) in
  num_images <~
    (if String.eqb (dataset_format a) "png" then
       images <~ load_images w (num_bits_x a) files ;;
       _ <~ assert (0 <? length images)%nat ;;
       ret (length images)
     else if String.eqb (dataset_format a) "npy" then
       images <~ load_images w (num_bits_x a) files ;;
       _ <~ assert (0 <? length images)%nat ;;
       let num_files := length images in
       ret (num_files * stacked_shape1 images)%nat
     else raise NotImplementedError) ;;
  let num_batches := iterator_len w num_images (batch_size a) in
  _ <~ tell [SaveHyperparams (snapshot_path a);
             NewGlow (snapshot_path a);
             NewOptimizer] ;;
  _ <~ (if need_initialize w
        then match seq 0 num_batches with
             | [] => ret tt
             | _ :: _ => tell [InitActnorm]
             end
        else ret tt) ;;
  ret num_batches.

(** One iteration of the training loop, lines 169 to 222.  After the
    batches, [mean_log_likelihood = -sum_nll / len(iterator)] divides by
    the number of batches and raises [ZeroDivisionError] when there was
    none, before the summary is printed and the snapshot saved.  The
    arithmetic within a batch is taken to return normally, as the calls
    into Chainer are. *)
Definition train_iteration_checked (a : Args) (num_batches : nat)
           (iteration : nat) (current_training_step : Z) : M Z :=
  let (evs, s) :=
    train_batches a iteration (seq 0 num_batches) current_training_step in
  _ <~ tell evs ;;
  _ <~ (if (num_batches =? 0)%nat then raise ZeroDivisionError else ret tt) ;;
  _ <~ tell [Summary iteration; Save (snapshot_path a)] ;;
  ret s.

(** [for iteration in range(args.total_iteration)], an exception ending
    it. *)
Fixpoint training_loop_checked (a : Args) (num_batches : nat)
         (iterations : list nat) (current_training_step : Z) : M Z :=
  match iterations with
  | [] => ret current_training_step
  | iteration :: rest =>
      s <~ train_iteration_checked a num_batches iteration
                                   current_training_step ;;
      training_loop_checked a num_batches rest s
  end.

(** [main], lines 90 to 222. *)
Definition main_checked (a : Args) (w : World) : M unit :=
  num_batches <~ setup a w ;;
  _ <~ training_loop_checked a num_batches (range (total_iteration a)) 0 ;;
  ret tt.

(** [len(dataset)]: the number of images for png files, the number of
    files times the first dimension of their arrays for npy files. *)
Definition dataset_len (dataset_format : string) (images : list ndarray)
  : nat :=
  if String.eqb dataset_format "png" then length images
  else (length images * stacked_shape1 images)%nat.

(** The events of training: a step, the summary of an iteration, a
    snapshot. *)
Definition is_training (e : event) : bool :=
  match e with
  | Step _ _ _ | Summary _ | Save _ => true
  | _ => false
  end.

(** A file can be loaded when it can be read and holds an array of three
    or four axes. *)
Definition loadable (w : World) (filepath : string) : Prop :=
  exists image,
    read_array w filepath = Ok image /\ (ndim image = 3 \/ ndim image = 4)%nat.

(** An environment with two files, where the iterator yields [batches]
    batches, and one whose second file is a grey image of two axes. *)
Definition two_files_world (batches : nat) : World :=
  mkWorld (fun _ => Ok tt)
          (fun _ _ => ["data/0.png"; "data/1.png"]%string)
          (fun _ => Ok sample_image)
          true
          (fun _ _ => batches).

Definition grey_world : World :=
  mkWorld (fun _ => Ok tt)
          (fun _ _ => ["data/0.png"; "data/1.png"; "data/2.png"]%string)
          (fun filepath =>
             if String.eqb filepath "data/1.png"
             then Ok (mkArray [4; 4]%nat (fun _ => 9)) else Ok sample_image)
          false
          (fun _ _ => 3%nat).

End Script.


(** ** run/train.py: [merge_factorized_z] *)

Module Latent.

Section Merge.

(** The arrays of the latent variables ([zi.data]), with the two
    operations the function applies to them: [xp.concatenate((a, b),
    axis=1)] and [glow.nn.functions.unsqueeze(z, factor, xp)]. *)
Variable Array : Type.
Variable concatenate : Array -> Array -> Array.
Variable unsqueeze : Array -> Z -> Array.

(** The body of [for zi in reversed(factorized_z)], on [z], which is
    [None] before the first round. *)
Definition merge_step (factor : Z) (z : option Array) (zi : Array)
  : option Array :=
  let z := match z with
           | None => zi
           | Some z => concatenate zi z
           end in
  Some (unsqueeze z factor).

(** [merge_factorized_z]. *)
Definition merge_factorized_z (factorized_z : list Array) (factor : Z)
  : option Array :=
  fold_left (merge_step factor) (rev factorized_z) None.

End Merge.

End Latent.


(** * Properties *)

(** ** Comparison of rationals *)

Lemma Qltb_lt (x y : Q) : Qltb x y = true <-> x < y.
Proof.
  unfold Qltb. rewrite negb_true_iff.
  split; intro H.
  - apply Qnot_le_lt. intro Hle. apply Qle_bool_iff in Hle. congruence.
  - destruct (Qle_bool y x) eqn:E; [|reflexivity].
    apply Qle_bool_iff in E. exfalso. apply (Qlt_not_le _ _ H E).
Qed.

Lemma Qltb_ge (x y : Q) : Qltb x y = false <-> y <= x.
Proof.
  unfold Qltb. rewrite negb_false_iff. apply Qle_bool_iff.
Qed.

(** ** The learning-rate schedule *)

Module Schedule.

Import Optimizer.

(** The comparisons of [mu_s], on integers. *)
Lemma below_half (r m : Z) :
  inject_Z r < inject_Z m / 2 <-> (2 * r < m)%Z.
Proof.
  unfold Qlt, Qdiv, Qmult, Qinv, inject_Z. cbn [Qnum Qden]. lia.
Qed.

Lemma above_half (r m : Z) :
  inject_Z m / 2 <= inject_Z r <-> (m <= 2 * r)%Z.
Proof.
  unfold Qle, Qdiv, Qmult, Qinv, inject_Z. cbn [Qnum Qden]. lia.
Qed.




(** With a non-zero cycle length [mu_s] returns, by one of its two
    branches. *)
Lemma mu_s_returns (c : Cycle) (s : Z) :
  n c <> 0%Z ->
  mu_s c s =
  Ok (if Qltb (inject_Z (s mod n c)) (inject_Z (n c) / 2)
      then mu_f c + (mu_i c - mu_f c) * 2
                    * (inject_Z (s mod n c) / inject_Z (n c))
      else mu_f c + (mu_i c - mu_f c) * 2
                    * (1 - inject_Z (s mod n c) / inject_Z (n c))).
Proof.
  intro H. unfold mu_s.
  destruct (Z.eqb_spec (n c) 0) as [E|_]; [contradiction|].
  destruct (Qltb _ _); reflexivity.
Qed.

Lemma mu_s_increase (c : Cycle) (s : Z) :
  (0 < n c)%Z -> (2 * (s mod n c) < n c)%Z ->
  mu_s c s = Ok (mu_f c + (mu_i c - mu_f c) * 2
                          * (inject_Z (s mod n c) / inject_Z (n c))).
Proof.
  intros Hn H. rewrite mu_s_returns by lia.
  apply below_half, Qltb_lt in H. rewrite H. reflexivity.
Qed.

Lemma mu_s_decrease (c : Cycle) (s : Z) :
  (0 < n c)%Z -> (n c <= 2 * (s mod n c))%Z ->
  mu_s c s = Ok (mu_f c + (mu_i c - mu_f c) * 2
                          * (1 - inject_Z (s mod n c) / inject_Z (n c))).
Proof.
  intros Hn H. rewrite mu_s_returns by lia.
  apply above_half, Qltb_ge in H. rewrite H. reflexivity.
Qed.





End Schedule.


(** ** The optimizer wrapper *)

Module Wrapper.

Import Optimizer Schedule.

Lemma update_returns {Params : Type}
      (adam_rule : Q -> Q -> Q -> Q -> Z -> Params -> Params)
      (self : Optimizer Params) (s : Z) :
  n self <> 0%Z ->
  exists self',
    update adam_rule self s = Ok self' /\
    optimizer self'
    = set_alpha (Adam_update adam_rule (optimizer self)) (learning_rate self') /\
    cycle self' = cycle self /\
    mu_s self' s = Ok (learning_rate self').
Proof.
  intro Hn. unfold update, anneal_learning_rate. cbn [cycle].
  rewrite (mu_s_returns self s Hn). cbn [bind].
  eexists. split; [reflexivity|].
  cbn [optimizer cycle learning_rate set_alpha alpha].
  repeat split. apply mu_s_returns, Hn.
Qed.

Lemma updates_last {Params : Type}
      (adam_rule : Q -> Q -> Q -> Q -> Z -> Params -> Params)
      (steps : list Z) :
  forall (self : Optimizer Params) (s : Z),
    n self <> 0%Z ->
    exists self',
      updates adam_rule self (steps ++ [s]) = Ok self' /\
      cycle self' = cycle self /\
      mu_s self' s = Ok (learning_rate self').
Proof.
  induction steps as [|s0 steps IH]; intros self s Hn.
  - destruct (update_returns adam_rule self s Hn) as (self' & Hu & _ & Hc & Hlr).
    exists self'. cbn [app updates]. rewrite Hu. cbn [bind]. auto.
  - destruct (update_returns adam_rule self s0 Hn) as (self1 & Hu & _ & Hc & _).
    assert (Hn1 : n self1 <> 0%Z) by (rewrite Hc; exact Hn).
    destruct (IH self1 s Hn1) as (self' & Hus & Hc' & Hlr).
    exists self'. cbn [app updates]. rewrite Hu. cbn [bind].
    repeat split; [exact Hus | congruence | exact Hlr].
Qed.

(** C4. [update] applies one Adam step, with the learning rate the optimizer
    held until then, and afterwards sets the learning rate to
    [mu_s training_step].  So the learning rate is [mu_s 0] after
    construction and [mu_s s] after every call [update s], also at the end
    of any sequence of calls (the cycle length being non-zero, without
    which [mu_s] raises). *)
Theorem learning_rate_follows_schedule {Params : Type}
        (adam_rule : Q -> Q -> Q -> Q -> Z -> Params -> Params) :
  (forall (model_parameters : Params) (mi mf : Q) (m : Z) (b1 b2 e : Q),
      m <> 0%Z ->
      exists self,
        __init__ model_parameters mi mf m b1 b2 e = Ok self /\
        mu_s self 0 = Ok (learning_rate self)) /\
  (forall (self : Optimizer Params) (s : Z),
      n self <> 0%Z ->
      exists self',
        update adam_rule self s = Ok self' /\
        optimizer self'
        = set_alpha (Adam_update adam_rule (optimizer self))
                    (learning_rate self') /\
        target (optimizer self')
        = adam_rule (alpha (optimizer self)) (beta1 (optimizer self))
                    (beta2 (optimizer self)) (adam_eps (optimizer self))
                    (t (optimizer self) + 1)%Z (target (optimizer self)) /\
        mu_s self' s = Ok (learning_rate self')) /\
  (forall (self : Optimizer Params) (steps : list Z) (s : Z),
      n self <> 0%Z ->
      exists self',
        updates adam_rule self (steps ++ [s]) = Ok self' /\
        mu_s self' s = Ok (learning_rate self')).
Proof.
  split; [|split].
  - intros p mi mf m b1 b2 e Hm. unfold __init__.
    rewrite (mu_s_returns (mkCycle mi mf m) 0 Hm). cbn [bind].
    eexists. split; [reflexivity|].
    cbn [cycle learning_rate optimizer alpha].
    apply (mu_s_returns (mkCycle mi mf m) 0 Hm).
  - intros self s Hn.
    destruct (update_returns adam_rule self s Hn) as (self' & Hu & Ho & _ & Hlr).
    exists self'. repeat split; try assumption.
    rewrite Ho. reflexivity.
  - intros self steps s Hn.
    destruct (updates_last adam_rule steps self s Hn) as (self' & Hu & _ & Hlr).
    exists self'. split; assumption.
Qed.

Lemma learning_rate_follows_schedule_witness :
  exists self self',
    __init__ 1 default_mu_i default_mu_f default_n
             default_beta_1 default_beta_2 default_eps = Ok self /\
    mu_s self 0 = Ok (learning_rate self) /\
    update sample_rule self 2500 = Ok self' /\
    mu_s self' 2500 = Ok (learning_rate self') /\
    target (optimizer self') = target (optimizer self) - learning_rate self.
Proof.
  destruct (learning_rate_follows_schedule sample_rule) as (Hinit & Hupd & _).
  assert (Hn : default_n <> 0%Z) by discriminate.
  destruct (Hinit 1 default_mu_i default_mu_f default_n
                  default_beta_1 default_beta_2 default_eps Hn)
    as (self & Hi & Hlr).
  assert (Hn' : n self <> 0%Z).
  { unfold __init__ in Hi.
    rewrite (mu_s_returns (mkCycle default_mu_i default_mu_f default_n) 0 Hn)
      in Hi.
    cbn [bind] in Hi. injection Hi as <-. exact Hn. }
  destruct (Hupd self 2500%Z Hn') as (self' & Hu & _ & Ht & Hlr').
  exists self, self'. repeat split; assumption.
Defined.



End Wrapper.


(** ** Preprocessing *)

Module Preprocess.

Import Train.

Lemma pow2_Z (k : Z) : (0 <= k)%Z -> pow2 k == inject_Z (2 ^ k).
Proof.
  intro H. unfold pow2. symmetry. apply (Zpower_Qpower 2 k H).
Qed.



(** The multi-indices of a three- and of a four-dimensional shape. *)
Lemma in_bounds_3 (idx : list nat) (a b c : nat) :
  in_bounds idx [a; b; c] ->
  exists i j k, idx = [i; j; k] /\ (i < a /\ j < b /\ k < c)%nat.
Proof.
  intro H.
  inversion H as [|i ? idx1 ? Hi H1]; subst.
  inversion H1 as [|j ? idx2 ? Hj H2]; subst.
  inversion H2 as [|k ? idx3 ? Hk H3]; subst.
  inversion H3; subst.
  exists i, j, k. auto.
Qed.


Lemma in_bounds_intro_3 (i j k a b c : nat) :
  (i < a)%nat -> (j < b)%nat -> (k < c)%nat -> in_bounds [i; j; k] [a; b; c].
Proof.
  intros. repeat constructor; assumption.
Qed.


(** What [preprocess] returns for an image of three and of four
    dimensions. *)
Lemma preprocess_3 (image : ndarray) (bits : Z) (h w c : nat) :
  shape image = [h; w; c] ->
  exists out,
    preprocess image bits = Ok out /\
    shape out = [c; h; w] /\
    forall i j k, item out [k; i; j] = normalize bits (item image [i; j; k]).
Proof.
  intro Hs. unfold preprocess, ndim.
  destruct (bits <? 8)%Z eqn:E; cbn [map_array shape]; rewrite Hs;
    cbn [length Nat.eqb]; eexists; (split; [reflexivity|]);
    cbn [transpose shape item map_array]; rewrite Hs;
    (split; [reflexivity|]); intros i j k; unfold normalize; rewrite E;
    reflexivity.
Qed.

Lemma preprocess_4 (image : ndarray) (bits : Z) (b h w c : nat) :
  shape image = [b; h; w; c] ->
  exists out,
    preprocess image bits = Ok out /\
    shape out = [b; c; h; w] /\
    forall m i j k,
      item out [m; k; i; j] = normalize bits (item image [m; i; j; k]).
Proof.
  intro Hs. unfold preprocess, ndim.
  destruct (bits <? 8)%Z eqn:E; cbn [map_array shape]; rewrite Hs;
    cbn [length Nat.eqb]; eexists; (split; [reflexivity|]);
    cbn [transpose shape item map_array]; rewrite Hs;
    (split; [reflexivity|]); intros m i j k; unfold normalize; rewrite E;
    reflexivity.
Qed.

Lemma ndim_3 (image : ndarray) :
  ndim image = 3%nat -> exists h w c, shape image = [h; w; c].
Proof.
  unfold ndim. destruct (shape image) as [|h [|w [|c [|? ?]]]];
    try discriminate. intros _. exists h, w, c. reflexivity.
Qed.

Lemma ndim_4 (image : ndarray) :
  ndim image = 4%nat -> exists b h w c, shape image = [b; h; w; c].
Proof.
  unfold ndim. destruct (shape image) as [|b [|h [|w [|c [|? ?]]]]];
    try discriminate. intros _. exists b, h, w, c. reflexivity.
Qed.






End Preprocess.


(** ** The loss *)

Module LossTheory.

Import Loss.

Section Formula.

Local Open Scope R_scope.

Variable Tensor : Type.
Variable gaussian_nll : Tensor -> Tensor -> Tensor -> R.
Variable gaussian_kl_divergence : Tensor -> Tensor -> R.

Lemma accumulate_step (regularize_z : bool) (kld nll : R)
      (zi mean ln_var : Tensor) :
  accumulate Tensor gaussian_nll gaussian_kl_divergence regularize_z
             (kld, nll) (zi, mean, ln_var)
  = (if regularize_z then kld + gaussian_kl_divergence mean ln_var else kld,
     nll + gaussian_nll zi mean ln_var).
Proof.
  reflexivity.
Qed.

(** What the loop over the factorized latent variables adds to [kld] and to
    [negative_log_likelihood]. *)
Lemma fold_accumulate (regularize_z : bool)
      (fz : list (Tensor * Tensor * Tensor)) :
  forall kld nll : R,
    fold_left
      (accumulate Tensor gaussian_nll gaussian_kl_divergence regularize_z)
      fz (kld, nll)
    = (kld + (if regularize_z
              then sum_kld Tensor gaussian_kl_divergence fz else 0),
       nll + sum_nll Tensor gaussian_nll fz).
Proof.
  unfold sum_nll, sum_kld, Rsum.
  induction fz as [|[[zi mean] ln_var] fz IH]; intros kld nll.
  - cbn [fold_left map fold_right].
    destruct regularize_z; f_equal; ring.
  - cbn [fold_left map fold_right]. rewrite accumulate_step, IH.
    destruct regularize_z; f_equal; ring.
Qed.

(** C3. The loss of a batch is
    [((sum of gaussian_nll (zi, mean, ln_var)) + kld) / batch_size - logdet],
    divided by [log 2 * num_pixels], where [logdet] is the log-determinant
    of the model minus [log num_bins_x * num_pixels] and [kld] is the sum of
    [gaussian_kl_divergence (mean, ln_var)] when [regularize_z] is set and
    0 when it is not. *)
Theorem batch_loss_formula (regularize_z : bool)
        (batch_size num_bits_x num_pixels : Z)
        (fz : list (Tensor * Tensor * Tensor)) (logdet : R) :
  batch_kld Tensor gaussian_nll gaussian_kl_divergence regularize_z fz
  = (if regularize_z
     then sum_kld Tensor gaussian_kl_divergence fz else 0) /\
  batch_loss Tensor gaussian_nll gaussian_kl_divergence
             regularize_z batch_size num_bits_x num_pixels fz logdet
  = ((sum_nll Tensor gaussian_nll fz
      + (if regularize_z
         then sum_kld Tensor gaussian_kl_divergence fz else 0))
       / IZR batch_size
     - (logdet - ln (powerRZ 2 num_bits_x) * IZR num_pixels))
    / (ln 2 * IZR num_pixels).
Proof.
  unfold batch_kld, batch_loss. rewrite fold_accumulate. cbn [fst].
  split.
  - ring.
  - rewrite !Rplus_0_l. reflexivity.
Qed.

End Formula.

End LossTheory.


(** ** The training script *)

Module Main.

Import Train.

(** *** Traces of the monad *)


Lemma snd_bindM {A B : Type} (m : M A) (k : A -> M B) :
  snd (bindM m k)
  = match snd m with
    | Ok a => snd (k a)
    | Raise e => Raise e
    end.
Proof.
  destruct m as [tr [a|e]]; cbn [bindM fst snd]; [|reflexivity].
  destruct (k a). reflexivity.
Qed.





(** *** Paced traces *)





(** *** The training loop *)





(** The events of one pass over the batches other than the snapshots: one
    step per batch, at consecutive training steps. *)
Lemma train_batches_steps (a : Args) (iteration : nat) (len : nat) :
  forall (start : nat) (s : Z),
    filter (fun e => negb (is_save e))
           (fst (train_batches a iteration (seq start len) s))
    = map (fun b => Step iteration b (s + Z.of_nat b - Z.of_nat start))
          (seq start len) /\
    snd (train_batches a iteration (seq start len) s) = (s + Z.of_nat len)%Z.
Proof.
  induction len as [|len IH]; intros start s; cbn [seq train_batches map].
  - cbn. split; [reflexivity|lia].
  - destruct (IH (S start) (s + 1)%Z) as [IH1 IH2].
    destruct (train_batches a iteration (seq (S start) len) (s + 1))
      as [evs' s'].
    cbn [fst snd] in *. split; [|lia].
    rewrite filter_app, IH1. unfold train_batch.
    replace (filter _ (Step iteration start s :: _))
      with [Step iteration start s]
      by (destruct (_ =? _)%Z; reflexivity).
    cbn [app]. f_equal; [f_equal; lia|].
    apply map_ext. intro b. f_equal. lia.
Qed.

Lemma train_iteration_steps (a : Args) (num_batches iteration : nat) (s : Z) :
  filter (fun e => negb (is_save e))
         (fst (train_iteration a num_batches iteration s))
  = (map (fun b => Step iteration b (s + Z.of_nat b)) (seq 0 num_batches)
     ++ [Summary iteration])%list /\
  snd (train_iteration a num_batches iteration s)
  = (s + Z.of_nat num_batches)%Z.
Proof.
  unfold train_iteration.
  destruct (train_batches_steps a iteration num_batches 0 s) as [H1 H2].
  destruct (train_batches a iteration (seq 0 num_batches) s) as [evs s'].
  cbn [fst snd] in *. split; [|exact H2].
  rewrite filter_app, H1. cbn [filter is_save negb]. f_equal.
  apply map_ext. intro b. f_equal. lia.
Qed.

(** *** The trace of [main] *)











(** *** Failures *)

Lemma string_in_formats (fmt : string) :
  string_in fmt ["png"; "npy"]%string = false <->
  fmt <> "png"%string /\ fmt <> "npy"%string.
Proof.
  unfold string_in. cbn [existsb]. rewrite orb_false_r, orb_false_iff.
  rewrite !String.eqb_neq. reflexivity.
Qed.

Lemma main_bad_format (a : Args) (w : World) :
  string_in (dataset_format a) ["png"; "npy"]%string = false ->
  main a w = (before_assert a, Raise AssertionError).
Proof.
  intro H. unfold main, before_assert. cbv zeta. rewrite H.
  destruct (os_mkdir w (snapshot_path a)) as [[]|e];
    destruct (gpu_device a >=? 0)%Z; reflexivity.
Qed.

Lemma main_no_files (a : Args) (w : World) :
  glob w (dataset_path a) (dataset_format a) = [] ->
  main a w = (before_assert a, Raise AssertionError).
Proof.
  intro H.
  destruct (string_in (dataset_format a) ["png"; "npy"]%string) eqn:Hf;
    [|apply main_bad_format, Hf].
  unfold main, before_assert. cbv zeta. rewrite H, Hf.
  unfold string_in in Hf. cbn [existsb] in Hf. rewrite orb_false_r in Hf.
  destruct (dataset_format a =? "png")%string;
    [|cbn [orb] in Hf; rewrite Hf];
    destruct (os_mkdir w (snapshot_path a)) as [[]|e];
    destruct (gpu_device a >=? 0)%Z; reflexivity.
Qed.

Lemma before_assert_events (a : Args) (e : event) :
  In e (before_assert a) ->
  e = Mkdir (snapshot_path a) \/ e = UseDevice (gpu_device a).
Proof.
  unfold before_assert. destruct (gpu_device a >=? 0)%Z; cbn [In];
    intuition auto.
Qed.

(** C8. For a dataset format other than "png" and "npy", [main] raises
    [AssertionError] and has loaded no file by then; and when the dataset
    directory has no file of the given extension, [main] raises
    [AssertionError] and no training step has been taken. *)
Theorem main_asserts (a : Args) (w : World) :
  (dataset_format a <> "png"%string -> dataset_format a <> "npy"%string ->
   snd (main a w) = Raise AssertionError /\
   forall filepath, ~ In (Load filepath) (fst (main a w))) /\
  (glob w (dataset_path a) (dataset_format a) = [] ->
   snd (main a w) = Raise AssertionError /\
   forall iteration batch_index s,
     ~ In (Step iteration batch_index s) (fst (main a w))).
Proof.
  split.
  - intros Hpng Hnpy.
    rewrite (main_bad_format a w)
      by (apply string_in_formats; split; assumption).
    split; [reflexivity|].
    intros f Hin. apply before_assert_events in Hin.
    destruct Hin; discriminate.
  - intro Hglob. rewrite (main_no_files a w Hglob).
    split; [reflexivity|].
    intros it b s Hin. apply before_assert_events in Hin.
    destruct Hin; discriminate.
Qed.

Lemma main_asserts_witness :
  dataset_format jpg_args <> "png"%string /\
  dataset_format jpg_args <> "npy"%string /\
  snd (main jpg_args (sample_world 1)) = Raise AssertionError /\
  glob empty_world (dataset_path sample_args) (dataset_format sample_args)
  = [] /\
  snd (main sample_args empty_world) = Raise AssertionError.
Proof.
  assert (Hpng : dataset_format jpg_args <> "png"%string) by discriminate.
  assert (Hnpy : dataset_format jpg_args <> "npy"%string) by discriminate.
  destruct (main_asserts jpg_args (sample_world 1)) as [Hfmt _].
  destruct (main_asserts sample_args empty_world) as [_ Hglob].
  split; [exact Hpng|]. split; [exact Hnpy|].
  split; [apply (Hfmt Hpng Hnpy)|].
  split; [reflexivity|]. apply (Hglob eq_refl).
Defined.






End Main.


(** * Further properties *)

(** ** The schedule beyond one cycle *)

Module ScheduleShape.

Import Optimizer Schedule.

(** X1. The schedule has period [n] in both directions, whatever the sign of
    the step and of [n]; with [n = 0] both sides raise. *)
Theorem mu_s_shift (c : Cycle) (s k : Z) :
  mu_s c (s + k * n c) = mu_s c s.
Proof.
  unfold mu_s. rewrite Z_mod_plus_full. reflexivity.
Qed.

(** The schedule as a tent: the distance to the nearer end of the cycle,
    doubled, over the cycle length. *)
Lemma mu_s_tent (c : Cycle) (s : Z) :
  (0 < n c)%Z ->
  exists v,
    mu_s c s = Ok v /\
    v == mu_f c
         + (mu_i c - mu_f c)
           * (inject_Z (Z.min (2 * (s mod n c)) (2 * (n c - s mod n c)))
              / inject_Z (n c)).
Proof.
  intro Hn.
  assert (HN : ~ inject_Z (n c) == 0).
  { unfold Qeq, inject_Z. cbn [Qnum Qden]. lia. }
  destruct (Z_lt_le_dec (2 * (s mod n c)) (n c)) as [Hlt|Hge].
  - eexists. split; [apply mu_s_increase; assumption|].
    rewrite Z.min_l by lia. rewrite inject_Z_mult. field. exact HN.
  - eexists. split; [apply mu_s_decrease; assumption|].
    rewrite Z.min_r by lia.
    rewrite inject_Z_mult. unfold Z.sub.
    rewrite inject_Z_plus, inject_Z_opp. field. exact HN.
Qed.

Lemma fraction_le (m m' k : Z) :
  (0 < k)%Z -> (m <= m')%Z -> inject_Z m / inject_Z k <= inject_Z m' / inject_Z k.
Proof.
  intros Hk H. destruct k as [|p|p]; try lia.
  unfold Qle, Qdiv, Qmult, Qinv, inject_Z. cbn [Qnum Qden]. nia.
Qed.

(** X2. Within a cycle the rate rises up to the middle and falls after it. *)
Theorem mu_s_rises_then_falls (c : Cycle) (s s' : Z) :
  (0 < n c)%Z -> mu_f c <= mu_i c ->
  (0 <= s <= s')%Z -> (s' < n c)%Z ->
  exists v v',
    mu_s c s = Ok v /\ mu_s c s' = Ok v' /\
    ((2 * s' <= n c)%Z -> v <= v') /\
    ((n c <= 2 * s)%Z -> v' <= v).
Proof.
  intros Hn Hmu Hs Hs'.
  destruct (mu_s_tent c s Hn) as (v & Hv & E).
  destruct (mu_s_tent c s' Hn) as (v' & Hv' & E').
  rewrite (Z.mod_small s) in E by lia.
  rewrite (Z.mod_small s') in E' by lia.
  exists v, v'. split; [exact Hv|]. split; [exact Hv'|].
  split; intro H.
  - rewrite Z.min_l in E, E' by lia.
    pose proof (fraction_le (2 * s) (2 * s') (n c) Hn ltac:(lia)) as Hq.
    set (q := inject_Z (2 * s) / inject_Z (n c)) in *.
    set (q' := inject_Z (2 * s') / inject_Z (n c)) in *.
    rewrite E, E'. nra.
  - rewrite Z.min_r in E, E' by lia.
    pose proof (fraction_le (2 * (n c - s')) (2 * (n c - s)) (n c) Hn
                            ltac:(lia)) as Hq.
    set (q := inject_Z (2 * (n c - s)) / inject_Z (n c)) in *.
    set (q' := inject_Z (2 * (n c - s')) / inject_Z (n c)) in *.
    rewrite E, E'. nra.
Qed.

Lemma mu_s_rises_then_falls_witness :
  exists v v',
    mu_s default_cycle 100 = Ok v /\ mu_s default_cycle 4000 = Ok v' /\
    v <= v'.
Proof.
  assert (Hn : (0 < n default_cycle)%Z) by reflexivity.
  assert (Hmu : mu_f default_cycle <= mu_i default_cycle)
    by (vm_compute; discriminate).
  destruct (mu_s_rises_then_falls default_cycle 100 4000 Hn Hmu
              ltac:(lia) ltac:(reflexivity))
    as (v & v' & Hv & Hv' & Hup & _).
  exists v, v'. split; [exact Hv|]. split; [exact Hv'|].
  apply Hup. vm_compute. discriminate.
Defined.





End ScheduleShape.


(** ** The wrapper over a run *)

Module Run.

Import Optimizer Schedule.


Lemma update_keeps {Params : Type}
      (adam_rule : Q -> Q -> Q -> Q -> Z -> Params -> Params)
      (self self' : Optimizer Params) (s : Z) :
  update adam_rule self s = Ok self' ->
  cycle self' = cycle self /\
  beta_1 self' = beta_1 self /\ beta_2 self' = beta_2 self /\
  eps self' = eps self /\
  beta1 (optimizer self') = beta1 (optimizer self) /\
  beta2 (optimizer self') = beta2 (optimizer self) /\
  adam_eps (optimizer self') = adam_eps (optimizer self) /\
  t (optimizer self') = (t (optimizer self) + 1)%Z.
Proof.
  unfold update, anneal_learning_rate. cbn [cycle optimizer beta_1 beta_2 eps].
  destruct (mu_s self s) as [lr|x]; cbn [bind]; [|discriminate].
  intro H. injection H as <-. cbn. repeat split.
Qed.

(** X6. However many updates are made, the wrapper changes nothing of the
    optimizer but the learning rate, the counter and the parameters: the
    cycle and the Adam coefficients stay, and the counter has advanced by
    the number of updates. *)
Theorem updates_keep {Params : Type}
        (adam_rule : Q -> Q -> Q -> Q -> Z -> Params -> Params)
        (steps : list Z) :
  forall self self' : Optimizer Params,
    updates adam_rule self steps = Ok self' ->
    cycle self' = cycle self /\
    beta_1 self' = beta_1 self /\ beta_2 self' = beta_2 self /\
    eps self' = eps self /\
    beta1 (optimizer self') = beta1 (optimizer self) /\
    beta2 (optimizer self') = beta2 (optimizer self) /\
    adam_eps (optimizer self') = adam_eps (optimizer self) /\
    t (optimizer self') = (t (optimizer self) + Z.of_nat (length steps))%Z.
Proof.
  induction steps as [|s steps IH]; intros self self' H.
  - injection H as <-. cbn [length Z.of_nat]. rewrite Z.add_0_r.
    repeat split.
  - cbn [updates] in H.
    destruct (update adam_rule self s) as [self1|x] eqn:E; cbn [bind] in H;
      [|discriminate].
    destruct (update_keeps adam_rule self self1 s E)
      as (H1 & H2 & H3 & H4 & H5 & H6 & H7 & H8).
    destruct (IH self1 self' H) as (K1 & K2 & K3 & K4 & K5 & K6 & K7 & K8).
    cbn [length]. rewrite Nat2Z.inj_succ.
    repeat split; try congruence. lia.
Qed.

Lemma updates_keep_witness :
  exists self' : Optimizer Q,
    updates sample_rule sample_optimizer [0; 1; 2]%Z = Ok self' /\
    t (optimizer self') = 3%Z /\
    beta2 (optimizer self') = default_beta_2.
Proof.
  destruct (updates sample_rule sample_optimizer [0; 1; 2]%Z)
    as [self'|x] eqn:E; [|vm_compute in E; discriminate E].
  destruct (updates_keep sample_rule [0; 1; 2]%Z sample_optimizer self' E)
    as (_ & _ & _ & _ & _ & K6 & _ & K8).
  exists self'. split; [reflexivity|]. split; [exact K8|exact K6].
Defined.

Lemma updates_app {Params : Type}
      (adam_rule : Q -> Q -> Q -> Q -> Z -> Params -> Params)
      (l1 l2 : list Z) :
  forall self : Optimizer Params,
    updates adam_rule self (l1 ++ l2)
    = (self1 <- updates adam_rule self l1 ;; updates adam_rule self1 l2).
Proof.
  induction l1 as [|s l1 IH]; intro self; cbn [app updates bind].
  - reflexivity.
  - destruct (update adam_rule self s) as [self1|x]; cbn [bind].
    + apply IH.
    + reflexivity.
Qed.

(** X7. The learning rate lags one call behind: in a run of updates, the Adam
    step of a call is taken with the rate that the call before it set, the
    [mu_s] of the step before, and only afterwards does the call set its
    own. *)
Theorem learning_rate_lags {Params : Type}
        (adam_rule : Q -> Q -> Q -> Q -> Z -> Params -> Params)
        (self : Optimizer Params) (steps : list Z) (s s' : Z) :
  n self <> 0%Z ->
  exists self1 self2,
    updates adam_rule self (steps ++ [s]) = Ok self1 /\
    updates adam_rule self (steps ++ [s; s']) = Ok self2 /\
    mu_s self s = Ok (learning_rate self1) /\
    mu_s self s' = Ok (learning_rate self2) /\
    target (optimizer self2)
    = adam_rule (learning_rate self1) (beta1 (optimizer self1))
                (beta2 (optimizer self1)) (adam_eps (optimizer self1))
                (t (optimizer self1) + 1)%Z (target (optimizer self1)).
Proof.
  intro Hn.
  destruct (Wrapper.updates_last adam_rule steps self s Hn)
    as (self1 & H1 & Hc1 & Hlr1).
  assert (Hn1 : n self1 <> 0%Z) by (rewrite Hc1; exact Hn).
  destruct (Wrapper.update_returns adam_rule self1 s' Hn1)
    as (self2 & H2 & Ho & Hc2 & Hlr2).
  exists self1, self2. split; [exact H1|]. split; [|split; [|split]].
  - replace (steps ++ [s; s'])%list with ((steps ++ [s]) ++ [s'])%list
      by (rewrite <- app_assoc; reflexivity).
    rewrite updates_app, H1. cbn [bind updates]. rewrite H2. reflexivity.
  - rewrite <- Hlr1. unfold mu_s. rewrite Hc1. reflexivity.
  - rewrite <- Hlr2. unfold mu_s. rewrite Hc2, Hc1. reflexivity.
  - rewrite Ho. reflexivity.
Qed.

Lemma learning_rate_lags_witness :
  exists self1 self2 : Optimizer Q,
    updates sample_rule sample_optimizer [0]%Z = Ok self1 /\
    updates sample_rule sample_optimizer [0; 1]%Z = Ok self2 /\
    mu_s sample_optimizer 0 = Ok (learning_rate self1) /\
    target (optimizer self2)
    = target (optimizer self1) - learning_rate self1.
Proof.
  destruct (learning_rate_lags sample_rule sample_optimizer [] 0 1
              ltac:(discriminate))
    as (self1 & self2 & H1 & H2 & Hlr & _ & Ht).
  exists self1, self2. repeat split; assumption.
Defined.

End Run.


(** ** Quantization *)

Module Quantization.

Import Train Preprocess.

(** An 8-bit pixel [p] is normalized to
    [(p >> (8 - num_bits_x)) / 2**num_bits_x - 1/2]. *)
Lemma normalize_shiftr (b p : Z) :
  (0 <= b <= 8)%Z -> (0 <= p < 256)%Z ->
  normalize b (inject_Z p)
  == inject_Z (Z.shiftr p (8 - b)) / inject_Z (2 ^ b) - (1 # 2) /\
  (0 <= Z.shiftr p (8 - b) < 2 ^ b)%Z.
Proof.
  intros Hb Hp.
  assert (HB : (0 < 2 ^ b)%Z) by (apply Z.pow_pos_nonneg; lia).
  assert (HP : (0 < 2 ^ (8 - b))%Z) by (apply Z.pow_pos_nonneg; lia).
  rewrite Z.shiftr_div_pow2 by lia.
  split.
  - unfold normalize. rewrite (pow2_Z b) by lia.
    destruct (Z.ltb_spec b 8) as [Hlt|Hge].
    + unfold floor.
      rewrite (Qfloor_comp _ _ (Qdiv_comp _ _ (Qeq_refl (inject_Z p)) _ _
                                          (pow2_Z (8 - b) ltac:(lia)))).
      rewrite <- Zdiv_Qdiv. reflexivity.
    + replace (8 - b)%Z with 0%Z by lia. rewrite Z.pow_0_r, Z.div_1_r.
      reflexivity.
  - split; [apply Z.div_pos; lia|].
    apply Z.div_lt_upper_bound; [lia|].
    rewrite <- Z.pow_add_r by lia.
    replace (8 - b + b)%Z with 8%Z by lia. change (2 ^ 8)%Z with 256%Z. lia.
Qed.



End Quantization.


(** ** Back to 8-bit images *)

Module Uint8.

Import Train Images.

Lemma clip_range (x : Q) : 0 <= clip x 0 255 /\ clip x 0 255 <= 255.
Proof.
  unfold clip, minimum, maximum.
  destruct (Qltb x 0) eqn:E0.
  - destruct (Qltb 255 0) eqn:E1; [discriminate E1|].
    split; [apply Qle_refl|discriminate].
  - apply Qltb_ge in E0.
    destruct (Qltb 255 x) eqn:E1.
    + split; [discriminate|apply Qle_refl].
    + apply Qltb_ge in E1. split; assumption.
Qed.

Lemma clip_within (x : Q) : 0 <= x -> x <= 255 -> clip x 0 255 = x.
Proof.
  intros H0 H1. unfold clip, minimum, maximum.
  apply Qltb_ge in H0. rewrite H0.
  apply Qltb_ge in H1. rewrite H1. reflexivity.
Qed.

Lemma uint8_floor (x : Q) : 0 <= x -> uint8 x = Qfloor x.
Proof.
  intro H. unfold uint8. apply Qltb_ge in H. rewrite H. reflexivity.
Qed.

Lemma to_uint8_range (bins : Z) (array : ndarray) (idx : list nat) :
  (0 <= u8_item (to_uint8 bins array) idx <= 255)%Z.
Proof.
  cbn [to_uint8 u8_item].
  match goal with |- context [clip ?x 0 255] => destruct (clip_range x) as [H0 H1];
    set (y := clip x 0 255) in * end.
  rewrite (uint8_floor y H0). split.
  - change 0%Z with (Qfloor 0). apply Qfloor_resp_le, H0.
  - change 255%Z with (Qfloor 255). apply Qfloor_resp_le, H1.
Qed.

(** X10. Whatever the array holds, every entry of the result of [make_uint8] is
    within 0 .. 255. *)
Theorem make_uint8_range (array : ndarray) (bins : Z) (out : uint8_array) :
  make_uint8 array bins = Returned out ->
  forall idx, (0 <= u8_item out idx <= 255)%Z.
Proof.
  unfold make_uint8. intros H idx.
  destruct (if (ndim array =? 4)%nat then select array 0 else Returned array)
    as [array'|e]; [|discriminate H].
  destruct (nth_error (shape array') 2) as [d|]; [|discriminate H].
  destruct (d =? 3)%nat.
  - destruct (bins =? 0)%Z; [discriminate H|].
    injection H as <-. apply to_uint8_range.
  - destruct (ndim array' =? 3)%nat; [|discriminate H].
    destruct (bins =? 0)%Z; [discriminate H|].
    injection H as <-. apply to_uint8_range.
Qed.

Lemma make_uint8_range_witness :
  exists out,
    make_uint8 sample_image 32 = Returned out /\
    (0 <= u8_item out [0; 1; 2]%nat <= 255)%Z.
Proof.
  destruct (make_uint8 sample_image 32) as [out|e] eqn:E;
    [|vm_compute in E; discriminate E].
  exists out. split; [reflexivity|].
  apply (make_uint8_range sample_image 32 out E).
Defined.

Ltac outcome :=
  let H := fresh "H" in
  let out := fresh "out" in
  split;
  [ split;
    [ intros [out H]; try discriminate H; lia
    | intro H; try (exfalso; lia); eexists; reflexivity ]
  | split;
    (split;
     [ intro H; try discriminate H; lia
     | intro H; try (exfalso; lia); reflexivity ]) ].

(** X11. When [make_uint8] returns and when it raises: it needs a non-zero
    [bins] and an array of three axes, or of four with a first entry, or of
    more with a third axis of length 3; [IndexError] comes from an array of
    fewer than three axes or an empty batch, [ValueError] from the
    transposition of an array of five axes or more. *)
Theorem make_uint8_outcomes (array : ndarray) (bins : Z) :
  ((exists out, make_uint8 array bins = Returned out) <->
   bins <> 0%Z /\
   (ndim array = 3 \/
    (ndim array = 4 /\ nth 0 (shape array) 0 <> 0) \/
    (5 <= ndim array /\ nth 2 (shape array) 0 = 3))%nat) /\
  (make_uint8 array bins = Raised IndexError <->
   (ndim array < 3 \/ (ndim array = 4 /\ nth 0 (shape array) 0 = 0))%nat) /\
  (make_uint8 array bins = Raised (Exn ValueError) <->
   (5 <= ndim array /\ nth 2 (shape array) 0 <> 3)%nat).
Proof.
  unfold make_uint8, select, ndim.
  destruct (shape array) as [|d0 [|d1 [|d2 [|d3 [|d4 rest]]]]] eqn:Hs;
    cbn [length Nat.eqb nth nth_error]; rewrite ?Hs;
    cbn [length Nat.eqb nth nth_error].
  - outcome.
  - outcome.
  - outcome.
  - destruct (Nat.eqb_spec d2 3); destruct (Z.eqb_spec bins 0); outcome.
  - destruct (Nat.ltb_spec 0 d0); cbn [shape length Nat.eqb nth_error];
      [destruct (Nat.eqb_spec d3 3); destruct (Z.eqb_spec bins 0)|];
      outcome.
  - destruct (Nat.eqb_spec d2 3); destruct (Z.eqb_spec bins 0); outcome.
Qed.

Lemma make_uint8_outcomes_witness :
  make_uint8 sample_row 32 = Raised IndexError /\
  exists out, make_uint8 sample_image 32 = Returned out.
Proof.
  destruct (make_uint8_outcomes sample_row 32) as (_ & [_ Hidx] & _).
  destruct (make_uint8_outcomes sample_image 32) as ([_ Hret] & _).
  split.
  - apply Hidx. left. cbn. lia.
  - apply Hret. split; [discriminate|]. left. reflexivity.
Defined.

(** A pixel through [preprocess] and back through [make_uint8]. *)
Lemma restore_pixel (b p : Z) :
  (0 <= b <= 8)%Z -> (0 <= p < 256)%Z ->
  uint8 (clip (floor ((normalize b (inject_Z p) + (1 # 2)) * inject_Z (2 ^ b))
               * (255 / inject_Z (2 ^ b)))
              0 255)
  = (Z.shiftr p (8 - b) * 255 / 2 ^ b)%Z.
Proof.
  intros Hb Hp.
  destruct (Quantization.normalize_shiftr b p Hb Hp) as [E Hk].
  set (k := Z.shiftr p (8 - b)) in *.
  assert (HB : (0 < 2 ^ b)%Z) by (apply Z.pow_pos_nonneg; lia).
  assert (HBq : ~ inject_Z (2 ^ b) == 0).
  { unfold Qeq, inject_Z. cbn [Qnum Qden]. lia. }
  assert (E1 : (normalize b (inject_Z p) + (1 # 2)) * inject_Z (2 ^ b)
               == inject_Z k).
  { rewrite E. field. exact HBq. }
  unfold floor. rewrite (Qfloor_comp _ _ E1), Qfloor_Z.
  assert (E2 : inject_Z k * (255 / inject_Z (2 ^ b))
               == inject_Z (k * 255) / inject_Z (2 ^ b)).
  { rewrite inject_Z_mult. unfold Qdiv. ring. }
  assert (H0 : 0 <= inject_Z k * (255 / inject_Z (2 ^ b))).
  { rewrite E2. apply Qle_shift_div_l.
    - rewrite <- (Zlt_Qlt 0). exact HB.
    - rewrite Qmult_0_l. rewrite <- (Zle_Qle 0). lia. }
  assert (H1 : inject_Z k * (255 / inject_Z (2 ^ b)) <= 255).
  { rewrite E2. apply Qle_shift_div_r.
    - rewrite <- (Zlt_Qlt 0). exact HB.
    - change 255 with (inject_Z 255). rewrite <- inject_Z_mult, <- Zle_Qle.
      nia. }
  rewrite (clip_within _ H0 H1), (uint8_floor _ H0).
  rewrite (Qfloor_comp _ _ E2), <- Zdiv_Qdiv. reflexivity.
Qed.

Lemma restore_darkens (b p : Z) :
  (0 <= b <= 8)%Z -> (0 <= p < 256)%Z ->
  (0 <= Z.shiftr p (8 - b) * 255 / 2 ^ b <= p)%Z /\
  ((0 < p)%Z -> (Z.shiftr p (8 - b) * 255 / 2 ^ b < p)%Z).
Proof.
  intros Hb Hp.
  assert (HB : (0 < 2 ^ b)%Z) by (apply Z.pow_pos_nonneg; lia).
  assert (HP : (0 < 2 ^ (8 - b))%Z) by (apply Z.pow_pos_nonneg; lia).
  assert (HPB : (2 ^ (8 - b) * 2 ^ b = 256)%Z).
  { rewrite <- Z.pow_add_r by lia. replace (8 - b + b)%Z with 8%Z by lia.
    reflexivity. }
  rewrite Z.shiftr_div_pow2 by lia.
  set (k := (p / 2 ^ (8 - b))%Z).
  assert (Hk : (2 ^ (8 - b) * k <= p)%Z) by (apply Z.mul_div_le; lia).
  assert (Hk0 : (0 <= k)%Z) by (apply Z.div_pos; lia).
  set (r := (k * 255 / 2 ^ b)%Z).
  assert (Hr : (2 ^ b * r <= k * 255)%Z) by (apply Z.mul_div_le; lia).
  assert (Hr0 : (0 <= r)%Z) by (apply Z.div_pos; lia).
  assert (H256 : (256 * r <= 255 * p)%Z).
  { rewrite <- HPB. nia. }
  lia.
Qed.

Lemma sample_picture_pixels (idx : list nat) :
  in_bounds idx (u8_shape sample_picture) ->
  (0 <= u8_item sample_picture idx < 256)%Z.
Proof.
  intro H. apply Preprocess.in_bounds_3 in H.
  destruct H as (i & j & k & -> & Hi & Hj & Hk).
  cbn [sample_picture u8_item]. lia.
Qed.

Lemma narrow_picture_pixels (idx : list nat) :
  in_bounds idx (u8_shape narrow_picture) ->
  (0 <= u8_item narrow_picture idx < 256)%Z.
Proof.
  intro H. apply Preprocess.in_bounds_3 in H.
  destruct H as (i & j & k & -> & Hi & Hj & Hk).
  cbn [narrow_picture sample_picture u8_item]. lia.
Qed.

(** X8. An 8-bit image keeps the [num_bits_x] leading bits of each pixel:
    [preprocess] maps the pixel [p] to
    [(p >> (8 - num_bits_x)) / 2**num_bits_x - 1/2], one of
    [2**num_bits_x] values, and puts its channel first. *)
Theorem preprocess_keeps_leading_bits (u : uint8_array) (b : Z) (h w c : nat) :
  u8_shape u = [h; w; c] -> (0 <= b <= 8)%Z ->
  (forall idx, in_bounds idx (u8_shape u) -> (0 <= u8_item u idx < 256)%Z) ->
  exists x,
    preprocess (astype_float32 u) b = Ok x /\
    shape x = [c; h; w] /\
    forall i j k,
      (i < h)%nat -> (j < w)%nat -> (k < c)%nat ->
      item x [k; i; j]
      == inject_Z (Z.shiftr (u8_item u [i; j; k]) (8 - b)) / inject_Z (2 ^ b)
         - (1 # 2) /\
      (0 <= Z.shiftr (u8_item u [i; j; k]) (8 - b) < 2 ^ b)%Z.
Proof.
  intros Hs Hb Hpix.
  destruct (Preprocess.preprocess_3 (astype_float32 u) b h w c Hs)
    as (x & Hx & Hsx & Hvx).
  exists x. split; [exact Hx|]. split; [exact Hsx|].
  intros i j k Hi Hj Hk. rewrite Hvx. cbn [astype_float32 item].
  apply Quantization.normalize_shiftr; [exact Hb|].
  apply Hpix. rewrite Hs. apply Preprocess.in_bounds_intro_3; assumption.
Qed.

Lemma preprocess_keeps_leading_bits_witness :
  exists x,
    preprocess (astype_float32 sample_picture) 5 = Ok x /\
    shape x = [3; 2; 4]%nat /\
    item x [2; 1; 3]%nat == inject_Z 29 / inject_Z 32 - (1 # 2).
Proof.
  destruct (preprocess_keeps_leading_bits sample_picture 5 2 4 3 eq_refl
              ltac:(lia) sample_picture_pixels)
    as (x & Hx & Hs & Hv).
  exists x. split; [exact Hx|]. split; [exact Hs|].
  destruct (Hv 1%nat 3%nat 2%nat ltac:(lia) ltac:(lia) ltac:(lia)) as [E _].
  exact E.
Defined.

(** X12. [make_uint8] does not undo [preprocess].  An 8-bit image of a width
    other than 3, preprocessed at [b] bits and converted back with
    [2**b] bins, comes back in its shape, but each pixel [p] comes back as
    [(p >> (8 - b)) * 255 / 2**b] rounded down: never above [p], and below
    it whenever [p > 0]. *)
Theorem picture_round_trip (u : uint8_array) (b : Z) (h w c : nat) :
  u8_shape u = [h; w; c] -> w <> 3%nat -> (0 <= b <= 8)%Z ->
  (forall idx, in_bounds idx (u8_shape u) -> (0 <= u8_item u idx < 256)%Z) ->
  exists x out,
    preprocess (astype_float32 u) b = Ok x /\
    make_uint8 x (2 ^ b) = Returned out /\
    u8_shape out = [h; w; c] /\
    forall i j k,
      (i < h)%nat -> (j < w)%nat -> (k < c)%nat ->
      u8_item out [i; j; k]
      = (Z.shiftr (u8_item u [i; j; k]) (8 - b) * 255 / 2 ^ b)%Z /\
      (0 <= u8_item out [i; j; k] <= u8_item u [i; j; k])%Z /\
      ((0 < u8_item u [i; j; k])%Z ->
       (u8_item out [i; j; k] < u8_item u [i; j; k])%Z).
Proof.
  intros Hs Hw Hb Hpix.
  assert (HB : (2 ^ b <> 0)%Z).
  { pose proof (Z.pow_pos_nonneg 2 b). lia. }
  destruct (Preprocess.preprocess_3 (astype_float32 u) b h w c Hs)
    as (x & Hx & Hsx & Hvx).
  exists x. unfold make_uint8, ndim. rewrite Hsx.
  cbn [length Nat.eqb nth_error]. rewrite Hsx.
  cbn [length Nat.eqb nth_error].
  apply Nat.eqb_neq in Hw. rewrite Hw.
  apply Z.eqb_neq in HB. rewrite HB.
  eexists. split; [exact Hx|]. split; [reflexivity|].
  cbn [to_uint8 u8_shape u8_item transpose shape item map seq length
       index_of Nat.eqb nth].
  rewrite Hsx. cbn [nth]. split; [reflexivity|].
  intros i j k Hi Hj Hk.
  rewrite Hvx. cbn [astype_float32 item].
  assert (Hp : (0 <= u8_item u [i; j; k] < 256)%Z).
  { apply Hpix. rewrite Hs. apply Preprocess.in_bounds_intro_3; assumption. }
  rewrite (restore_pixel b _ Hb Hp).
  split; [reflexivity|]. apply restore_darkens; assumption.
Qed.

Lemma picture_round_trip_witness :
  exists x out,
    preprocess (astype_float32 sample_picture) 5 = Ok x /\
    make_uint8 x (2 ^ 5) = Returned out /\
    u8_shape out = [2; 4; 3]%nat /\
    u8_item out [1; 3; 2]%nat = 231%Z.
Proof.
  destruct (picture_round_trip sample_picture 5 2 4 3 eq_refl
              ltac:(discriminate) ltac:(lia) sample_picture_pixels)
    as (x & out & Hx & Ho & Hs & Hv).
  exists x, out. split; [exact Hx|]. split; [exact Ho|]. split; [exact Hs|].
  destruct (Hv 1%nat 3%nat 2%nat ltac:(lia) ltac:(lia) ltac:(lia)) as [E _].
  rewrite E. reflexivity.
Defined.

(** X13. An image three pixels wide is taken for one that is in HWC layout
    already: preprocessed and converted back, it stays in CHW layout, its
    shape [c; h; 3] and its pixels where [preprocess] put them. *)
Theorem narrow_picture_stays_transposed (u : uint8_array) (b : Z) (h c : nat) :
  u8_shape u = [h; 3; c]%nat -> (0 <= b <= 8)%Z ->
  (forall idx, in_bounds idx (u8_shape u) -> (0 <= u8_item u idx < 256)%Z) ->
  exists x out,
    preprocess (astype_float32 u) b = Ok x /\
    make_uint8 x (2 ^ b) = Returned out /\
    u8_shape out = [c; h; 3]%nat /\
    forall i j k,
      (i < h)%nat -> (j < 3)%nat -> (k < c)%nat ->
      u8_item out [k; i; j]
      = (Z.shiftr (u8_item u [i; j; k]) (8 - b) * 255 / 2 ^ b)%Z.
Proof.
  intros Hs Hb Hpix.
  assert (HB : (2 ^ b <> 0)%Z).
  { pose proof (Z.pow_pos_nonneg 2 b). lia. }
  destruct (Preprocess.preprocess_3 (astype_float32 u) b h 3 c Hs)
    as (x & Hx & Hsx & Hvx).
  exists x. unfold make_uint8, ndim. rewrite Hsx.
  cbn [length Nat.eqb nth_error]. rewrite Hsx.
  cbn [length Nat.eqb nth_error].
  apply Z.eqb_neq in HB. rewrite HB.
  eexists. split; [exact Hx|]. split; [reflexivity|].
  cbn [to_uint8 u8_shape u8_item]. split; [exact Hsx|].
  intros i j k Hi Hj Hk.
  rewrite Hvx. cbn [astype_float32 item].
  assert (Hp : (0 <= u8_item u [i; j; k] < 256)%Z).
  { apply Hpix. rewrite Hs. apply Preprocess.in_bounds_intro_3; assumption. }
  apply (restore_pixel b _ Hb Hp).
Qed.

Lemma narrow_picture_stays_transposed_witness :
  exists x out,
    preprocess (astype_float32 narrow_picture) 8 = Ok x /\
    make_uint8 x (2 ^ 8) = Returned out /\
    u8_shape out = [3; 2; 3]%nat.
Proof.
  destruct (narrow_picture_stays_transposed narrow_picture 8 2 3 eq_refl
              ltac:(lia) narrow_picture_pixels)
    as (x & out & Hx & Ho & Hs & _).
  exists x, out. split; [exact Hx|]. split; [exact Ho|exact Hs].
Defined.

(** X14. Preprocessing a batch is preprocessing each of its images: the entry
    [m] of the preprocessed batch is the preprocessed entry [m] of the
    batch. *)
Theorem preprocess_select (image : ndarray) (bits : Z) (nb h w c m : nat) :
  shape image = [nb; h; w; c] -> (m < nb)%nat ->
  exists out sub sub_out out_m,
    preprocess image bits = Ok out /\
    select image m = Returned sub /\
    preprocess sub bits = Ok sub_out /\
    select out m = Returned out_m /\
    shape out_m = shape sub_out /\
    forall idx, item out_m idx = item sub_out idx.
Proof.
  intros Hs Hm.
  destruct (Preprocess.preprocess_4 image bits nb h w c Hs)
    as (out & Ho & Hso & Hvo).
  assert (Hsel : select image m
                 = Returned (mkArray [h; w; c]
                                     (fun idx => item image (m :: idx)))).
  { unfold select. rewrite Hs. apply Nat.ltb_lt in Hm. rewrite Hm.
    reflexivity. }
  destruct (Preprocess.preprocess_3
              (mkArray [h; w; c] (fun idx => item image (m :: idx)))
              bits h w c eq_refl)
    as (sub_out & Hsub & Hss & Hvs).
  exists out. eexists. exists sub_out. eexists.
  split; [exact Ho|]. split; [exact Hsel|]. split; [exact Hsub|].
  split; [unfold select; rewrite Hso; apply Nat.ltb_lt in Hm; rewrite Hm;
          reflexivity|].
  cbn [shape item]. split; [symmetry; exact Hss|].
  intro idx.
  unfold preprocess in Ho, Hsub.
  unfold ndim in Ho, Hsub.
  cbn [map_array shape] in Ho, Hsub.
  assert (Es : (if (bits <? 8)%Z
                then map_array (fun v => floor (v / pow2 (8 - bits))) image
                else image).(shape) = shape image)
    by (destruct (bits <? 8)%Z; reflexivity).
  rewrite Es, Hs in Ho. cbn [length Nat.eqb] in Ho.
  injection Ho as <-.
  destruct (bits <? 8)%Z; cbn [shape length Nat.eqb] in Hsub;
    injection Hsub as <-; reflexivity.
Qed.

Lemma preprocess_select_witness :
  exists out sub sub_out out_m,
    preprocess sample_batch 4 = Ok out /\
    select sample_batch 1 = Returned sub /\
    preprocess sub 4 = Ok sub_out /\
    select out 1 = Returned out_m /\
    shape out_m = shape sub_out /\
    item out_m [2; 0; 1]%nat = item sub_out [2; 0; 1]%nat.
Proof.
  destruct (preprocess_select sample_batch 4 2 1 2 3 1 eq_refl ltac:(lia))
    as (out & sub & sub_out & out_m & H1 & H2 & H3 & H4 & H5 & H6).
  exists out, sub, sub_out, out_m.
  repeat (split; [assumption|]). apply H6.
Defined.

End Uint8.

(** ** The script from start to end *)

Module ScriptTheory.

Import Train Script Main.

(** *** The monad *)

Lemma bindM_bindM {A B C : Type} (m : M A) (f : A -> M B) (g : B -> M C) :
  bindM (bindM m f) g = bindM m (fun a => bindM (f a) g).
Proof.
  destruct m as [tr [a|e]]; cbn [bindM]; [|reflexivity].
  destruct (f a) as [tr' [b|e]]; cbn [bindM].
  - destruct (g b) as [tr'' r]. rewrite app_assoc. reflexivity.
  - reflexivity.
Qed.

Lemma bindM_ext {A B : Type} (m : M A) (f g : A -> M B) :
  (forall a, f a = g a) -> bindM m f = bindM m g.
Proof.
  intro H. destruct m as [tr [a|e]]; cbn [bindM]; [|reflexivity].
  rewrite H. reflexivity.
Qed.

Lemma ret_bindM {A B : Type} (a : A) (k : A -> M B) : bindM (ret a) k = k a.
Proof.
  cbn [ret bindM]. destruct (k a). reflexivity.
Qed.


Lemma bindM_tell {B : Type} (evs : list event) (k : unit -> M B) :
  bindM (tell evs) k = (evs ++ fst (k tt), snd (k tt))%list.
Proof.
  cbn [tell bindM]. destruct (k tt). reflexivity.
Qed.

(** [main] is the setup, then the training loop. *)
Lemma main_setup (a : Args) (w : World) :
  main a w
  = (num_batches <~ setup a w ;;
     tell (fst (training_loop a num_batches (range (total_iteration a)) 0))).
Proof.
  unfold main, setup. cbv zeta.
  repeat (rewrite bindM_bindM; apply bindM_ext; intro).
  rewrite ret_bindM. reflexivity.
Qed.

(** With at least one batch the division is harmless. *)
Lemma train_iteration_checked_batches (a : Args) (nb it : nat) (s : Z) :
  nb <> 0%nat ->
  train_iteration_checked a nb it s
  = (fst (train_iteration a nb it s), Ok (snd (train_iteration a nb it s))).
Proof.
  intro H. unfold train_iteration_checked, train_iteration.
  destruct (train_batches a it (seq 0 nb) s) as [evs s'].
  apply Nat.eqb_neq in H. rewrite H.
  cbn [tell ret bindM fst snd]. rewrite app_nil_r. reflexivity.
Qed.

Lemma training_loop_checked_batches (a : Args) (nb : nat) (its : list nat) :
  nb <> 0%nat ->
  forall s,
    training_loop_checked a nb its s
    = (fst (training_loop a nb its s), Ok (snd (training_loop a nb its s))).
Proof.
  intro H. induction its as [|it rest IH]; intro s;
    cbn [training_loop_checked training_loop].
  - reflexivity.
  - rewrite (train_iteration_checked_batches a nb it s H).
    destruct (train_iteration a nb it s) as [evs s1]. cbn [fst snd bindM].
    rewrite IH. destruct (training_loop a nb rest s1) as [evs' s2].
    reflexivity.
Qed.

Ltac peel_snd H :=
  match type of H with
  | snd (bindM ?m ?k) = Ok _ =>
      rewrite (snd_bindM m k) in H;
      let E := fresh "E" in
      destruct (snd m) eqn:E; [|discriminate H]
  end.

(** Where the iterator is never empty, [main_checked] is [main]. *)
Lemma main_checked_main (a : Args) (w : World) :
  (forall num_images, iterator_len w num_images (batch_size a) <> 0%nat) ->
  main_checked a w = main a w.
Proof.
  intro H. rewrite main_setup. unfold main_checked.
  assert (Hnb : forall nb, snd (setup a w) = Ok nb -> nb <> 0%nat).
  { intros nb Hs. unfold setup in Hs. cbv zeta in Hs.
    do 6 peel_snd Hs. cbn [ret snd] in Hs. injection Hs as <-. apply H. }
  destruct (setup a w) as [tr [nb|e]]; cbn [bindM]; [|reflexivity].
  rewrite (training_loop_checked_batches a nb _ (Hnb nb eq_refl)).
  cbn [bindM ret tell]. rewrite app_nil_r. reflexivity.
Qed.

(** *** Loading *)

Lemma preprocess_returns_iff (image : ndarray) (bits : Z) :
  (exists out, preprocess image bits = Ok out) <->
  (ndim image = 3 \/ ndim image = 4)%nat.
Proof.
  split.
  - intros [out H]. unfold preprocess in H.
    set (image' := map_array _ (if (bits <? 8)%Z then _ else _)) in H.
    assert (Hd : ndim image' = ndim image).
    { unfold image', ndim. destruct (bits <? 8)%Z; reflexivity. }
    rewrite Hd in H.
    destruct (Nat.eqb_spec (ndim image) 3) as [E3|N3]; [left; exact E3|].
    destruct (Nat.eqb_spec (ndim image) 4) as [E4|N4]; [right; exact E4|].
    discriminate H.
  - intros [H|H].
    + destruct (Preprocess.ndim_3 image H) as (h & w & c & Hs).
      destruct (Preprocess.preprocess_3 image bits h w c Hs) as (out & Ho & _).
      exists out. exact Ho.
    + destruct (Preprocess.ndim_4 image H) as (b & h & w & c & Hs).
      destruct (Preprocess.preprocess_4 image bits b h w c Hs)
        as (out & Ho & _).
      exists out. exact Ho.
Qed.

Lemma load_images_cons (w : World) (bits : Z) (f : string)
      (rest : list string) :
  load_images w bits (f :: rest)
  = match read_array w f with
    | Ok image =>
        match preprocess image bits with
        | Ok out =>
            (Load f :: fst (load_images w bits rest),
             match snd (load_images w bits rest) with
             | Ok images => Ok (out :: images)
             | Raise e => Raise e
             end)
        | Raise e => ([Load f], Raise e)
        end
    | Raise e => ([Load f], Raise e)
    end.
Proof.
  cbn [load_images]. rewrite bindM_tell.
  destruct (read_array w f) as [image|e]; cbn [lift bindM fst snd];
    [|reflexivity].
  destruct (preprocess image bits) as [out|e]; cbn [lift bindM fst snd];
    [|reflexivity].
  destruct (load_images w bits rest) as [tr [images|e]];
    cbn [bindM ret fst snd app]; [rewrite app_nil_r|]; reflexivity.
Qed.


(** The first file that cannot be loaded ends the loop: the files after it
    are not touched. *)
Lemma load_images_first_failure (w : World) (bits : Z) (pre : list string)
      (f : string) (post : list string) (e : exn) :
  Forall (loadable w) pre ->
  (read_array w f = Raise e \/
   exists image, read_array w f = Ok image /\
                 preprocess image bits = Raise e) ->
  load_images w bits (pre ++ f :: post)
  = (map Load (pre ++ [f]), Raise e).
Proof.
  intros Hpre Hf.
  induction Hpre as [|g pre (image & Hr & Hd) _ IH]; cbn [app map].
  - rewrite load_images_cons.
    destruct Hf as [Hf|(image & Hr & Hp)].
    + rewrite Hf. reflexivity.
    + rewrite Hr, Hp. reflexivity.
  - apply (preprocess_returns_iff image bits) in Hd. destruct Hd as [out Ho].
    rewrite load_images_cons, Hr, Ho, IH. reflexivity.
Qed.


(** *** The setup *)

Lemma formats (fmt : string) :
  string_in fmt ["png"; "npy"]%string = true ->
  (fmt =? "png")%string = false -> (fmt =? "npy")%string = true.
Proof.
  unfold string_in. cbn [existsb]. rewrite orb_false_r.
  intros H E. rewrite E in H. exact H.
Qed.

Lemma bindM_ok {A B : Type} (tr : list event) (a : A) (k : A -> M B) :
  bindM (tr, Ok a) k = ((tr ++ fst (k a))%list, snd (k a)).
Proof.
  cbn [bindM]. destruct (k a). reflexivity.
Qed.

Lemma mkdir_stage (a : Args) (w : World) :
  try_except_pass
    (_ <~ tell [Mkdir (snapshot_path a)] ;;
     lift (os_mkdir w (snapshot_path a)))
  = ([Mkdir (snapshot_path a)], Ok tt).
Proof.
  destruct (os_mkdir w (snapshot_path a)) as [[]|e]; reflexivity.
Qed.

Lemma device_stage (a : Args) :
  (if (gpu_device a >=? 0)%Z then tell [UseDevice (gpu_device a)] else ret tt)
  = (if (gpu_device a >=? 0)%Z then [UseDevice (gpu_device a)] else [],
     Ok tt).
Proof.
  destruct (gpu_device a >=? 0)%Z; reflexivity.
Qed.

Lemma load_stage (a : Args) (w : World) (files : list string) :
  string_in (dataset_format a) ["png"; "npy"]%string = true ->
  (if String.eqb (dataset_format a) "png" then
     images <~ load_images w (num_bits_x a) files ;;
     _ <~ assert (0 <? length images)%nat ;;
     ret (length images)
   else if String.eqb (dataset_format a) "npy" then
     images <~ load_images w (num_bits_x a) files ;;
     _ <~ assert (0 <? length images)%nat ;;
     ret (length images * stacked_shape1 images)%nat
   else raise NotImplementedError)
  = match load_images w (num_bits_x a) files with
    | (tr, Ok images) =>
        if (0 <? length images)%nat
        then (tr, Ok (dataset_len (dataset_format a) images))
        else (tr, Raise AssertionError)
    | (tr, Raise e) => (tr, Raise e)
    end.
Proof.
  intro Hf. unfold dataset_len.
  destruct (dataset_format a =? "png")%string eqn:Hpng;
    [|rewrite (formats _ Hf Hpng)];
    (destruct (load_images w (num_bits_x a) files) as [tr [images|e]];
     [|reflexivity]);
    rewrite bindM_ok;
    (destruct (0 <? length images)%nat;
     cbn [assert ret raise bindM fst snd]; rewrite ?app_nil_r; reflexivity).
Qed.

Lemma init_stage (w : World) (nb : nat) :
  (if need_initialize w
   then match seq 0 nb with
        | [] => ret tt
        | _ :: _ => tell [InitActnorm]
        end
   else ret tt)
  = (if need_initialize w
     then match nb with O => [] | S _ => [InitActnorm] end
     else [],
     Ok tt).
Proof.
  destruct (need_initialize w); [|reflexivity].
  destruct nb; reflexivity.
Qed.

Lemma setup_eval (a : Args) (w : World) :
  setup a w
  = if string_in (dataset_format a) ["png"; "npy"]%string then
      match load_images w (num_bits_x a)
                        (glob w (dataset_path a) (dataset_format a)) with
      | (tr, Ok images) =>
          if (0 <? length images)%nat then
            ((before_assert a ++ tr
              ++ [SaveHyperparams (snapshot_path a);
                  NewGlow (snapshot_path a); NewOptimizer]
              ++ (if need_initialize w
                  then match iterator_len
                               w (dataset_len (dataset_format a) images)
                               (batch_size a)
                       with O => [] | S _ => [InitActnorm] end
                  else []))%list,
             Ok (iterator_len w (dataset_len (dataset_format a) images)
                              (batch_size a)))
          else ((before_assert a ++ tr)%list, Raise AssertionError)
      | (tr, Raise e) => ((before_assert a ++ tr)%list, Raise e)
      end
    else (before_assert a, Raise AssertionError).
Proof.
  unfold setup, before_assert. cbv zeta.
  rewrite mkdir_stage, bindM_ok, device_stage, bindM_ok.
  destruct (string_in (dataset_format a) ["png"; "npy"]%string) eqn:Hf.
  - change (assert true) with (([] : list event), @Ok unit tt).
    rewrite bindM_ok, (load_stage a w _ Hf).
    destruct (load_images w (num_bits_x a)
                          (glob w (dataset_path a) (dataset_format a)))
      as [tr [images|e]].
    + destruct (0 <? length images)%nat.
      * rewrite bindM_ok, bindM_tell, init_stage, bindM_ok.
        cbn [fst snd ret app]. rewrite ?app_nil_r. reflexivity.
      * cbn [bindM fst snd app]. reflexivity.
    + cbn [bindM fst snd app]. reflexivity.
  - cbn [assert raise bindM fst snd app]. rewrite app_nil_r. reflexivity.
Qed.

Lemma load_trace (w : World) (bits : Z) (files : list string) :
  Forall (fun e => is_training e = false) (fst (load_images w bits files)).
Proof.
  induction files as [|f rest IH]; [constructor|].
  rewrite load_images_cons.
  destruct (read_array w f) as [image|e];
    [destruct (preprocess image bits) as [out|e]|]; cbn [fst];
    repeat constructor. exact IH.
Qed.

Lemma setup_trace (a : Args) (w : World) :
  Forall (fun e => is_training e = false) (fst (setup a w)).
Proof.
  assert (Hb : Forall (fun e => is_training e = false) (before_assert a)).
  { unfold before_assert. destruct (gpu_device a >=? 0)%Z;
      repeat constructor. }
  rewrite setup_eval.
  pose proof (load_trace w (num_bits_x a)
                (glob w (dataset_path a) (dataset_format a))) as Hl.
  destruct (string_in (dataset_format a) ["png"; "npy"]%string);
    [|exact Hb].
  destruct (load_images w (num_bits_x a)
                        (glob w (dataset_path a) (dataset_format a)))
    as [tr [images|e]]; cbn [fst] in *.
  - destruct (0 <? length images)%nat; cbn [fst].
    + repeat (apply Forall_app; split); try assumption.
      * repeat constructor.
      * destruct (need_initialize w); [|constructor].
        destruct (iterator_len w _ (batch_size a)); repeat constructor.
    + apply Forall_app. split; assumption.
  - apply Forall_app. split; assumption.
Qed.


Lemma preprocess_raises (image : ndarray) (bits : Z) :
  ndim image <> 3%nat -> ndim image <> 4%nat ->
  preprocess image bits = Raise NotImplementedError.
Proof.
  intros H3 H4. unfold preprocess.
  set (image' := map_array _ (if (bits <? 8)%Z then _ else _)).
  assert (Hd : ndim image' = ndim image).
  { unfold image', ndim. destruct (bits <? 8)%Z; reflexivity. }
  rewrite Hd. apply Nat.eqb_neq in H3, H4. rewrite H3, H4. reflexivity.
Qed.

(** X16. Loading stops at the first file that cannot be read or that holds an
    array of neither three nor four axes (a grey image has two): [main]
    ends with the exception of the read, or with [NotImplementedError],
    having opened the files up to that one and none after it. *)
Theorem first_bad_file_ends_main (a : Args) (w : World)
        (pre : list string) (filepath : string) (post : list string)
        (e : exn) :
  (dataset_format a = "png"%string \/ dataset_format a = "npy"%string) ->
  glob w (dataset_path a) (dataset_format a)
  = (pre ++ filepath :: post)%list ->
  Forall (loadable w) pre ->
  (read_array w filepath = Raise e \/
   exists image,
     read_array w filepath = Ok image /\
     ndim image <> 3%nat /\ ndim image <> 4%nat /\
     e = NotImplementedError) ->
  main_checked a w
  = ((before_assert a ++ map Load (pre ++ [filepath]))%list, Raise e) /\
  main a w = main_checked a w.
Proof.
  intros Hf Hglob Hpre Hbad.
  assert (Hs : setup a w
               = ((before_assert a ++ map Load (pre ++ [filepath]))%list,
                  Raise e)).
  { rewrite setup_eval, Hglob.
    replace (string_in (dataset_format a) ["png"; "npy"]%string) with true.
    - rewrite (load_images_first_failure w (num_bits_x a) pre filepath post e
                 Hpre); [reflexivity|].
      destruct Hbad as [Hr|(image & Hr & H3 & H4 & ->)]; [left; exact Hr|].
      right. exists image. split; [exact Hr|].
      apply preprocess_raises; assumption.
    - symmetry. unfold string_in. cbn [existsb].
      rewrite orb_false_r, orb_true_iff, !String.eqb_eq. exact Hf. }
  rewrite main_setup. unfold main_checked. rewrite Hs.
  split; reflexivity.
Qed.

Lemma loop_without_batches (a : Args) (it : nat) (rest : list nat) (s : Z) :
  training_loop_checked a 0 (it :: rest) s = ([], Raise ZeroDivisionError).
Proof.
  reflexivity.
Qed.

Lemma range_nonempty (k : Z) :
  (0 < k)%Z -> exists rest, range k = 0%nat :: rest.
Proof.
  intro H. unfold range.
  destruct (Z.to_nat k) as [|n] eqn:E; [lia|].
  exists (seq 1 n). reflexivity.
Qed.

(** X17. An iterator that yields no batch makes the first iteration fail: the
    mean over the batches divides by zero, [main] ends with
    [ZeroDivisionError], and nothing was trained and no snapshot saved. *)
Theorem empty_iterator_ends_main (a : Args) (w : World) (tr : list event) :
  setup a w = (tr, Ok 0%nat) -> (0 < total_iteration a)%Z ->
  main_checked a w = (tr, Raise ZeroDivisionError) /\
  Forall (fun e => is_training e = false) tr.
Proof.
  intros Hs HT. split.
  - unfold main_checked. rewrite Hs.
    destruct (range_nonempty _ HT) as [rest ->].
    rewrite bindM_ok, loop_without_batches. cbn [bindM fst snd].
    rewrite app_nil_r. reflexivity.
  - pose proof (setup_trace a w) as H. rewrite Hs in H. exact H.
Qed.


(** *** Counting *)

Lemma training_loop_steps (a : Args) (nb : nat) (len : nat) :
  forall i0 : nat,
    filter (fun e => negb (is_save e))
           (fst (training_loop a nb (seq i0 len) (Z.of_nat (i0 * nb))))
    = flat_map
        (fun it =>
           map (fun b => Step it b (Z.of_nat (it * nb + b))) (seq 0 nb)
           ++ [Summary it])%list
        (seq i0 len) /\
    snd (training_loop a nb (seq i0 len) (Z.of_nat (i0 * nb)))
    = Z.of_nat ((i0 + len) * nb).
Proof.
  induction len as [|len IH]; intro i0; cbn [seq training_loop flat_map].
  - cbn [fst snd filter]. split; [reflexivity|]. f_equal. lia.
  - destruct (train_iteration_steps a nb i0 (Z.of_nat (i0 * nb)))
      as [H1 H2].
    destruct (train_iteration a nb i0 (Z.of_nat (i0 * nb))) as [evs s1].
    cbn [fst snd] in H1, H2.
    assert (Es : s1 = Z.of_nat (S i0 * nb)) by (rewrite H2; lia).
    rewrite Es. destruct (IH (S i0)) as [IH1 IH2].
    destruct (training_loop a nb (seq (S i0) len) (Z.of_nat (S i0 * nb)))
      as [evs' s2].
    cbn [fst snd] in *. split.
    + rewrite filter_app, H1, IH1. f_equal. f_equal.
      apply map_ext. intro b. f_equal. lia.
    + rewrite IH2. f_equal. lia.
Qed.

(** X19. The training step handed to [optimizer.update] counts the batches
    across the iterations: batch [b] of iteration [it] is step
    [it * len(iterator) + b], and the loop ends at
    [total_iteration * len(iterator)].  Apart from the snapshots the loop
    does, per iteration, one step per batch and then the summary. *)
Theorem training_steps_are_consecutive (a : Args) (num_batches : nat) :
  num_batches <> 0%nat ->
  exists tr,
    training_loop_checked a num_batches (range (total_iteration a)) 0
    = (tr, Ok (Z.of_nat (Z.to_nat (total_iteration a) * num_batches))) /\
    filter (fun e => negb (is_save e)) tr
    = flat_map
        (fun it =>
           map (fun b => Step it b (Z.of_nat (it * num_batches + b)))
               (seq 0 num_batches)
           ++ [Summary it])%list
        (range (total_iteration a)).
Proof.
  intro Hnb. rewrite (training_loop_checked_batches a num_batches _ Hnb).
  unfold range.
  destruct (training_loop_steps a num_batches
              (Z.to_nat (total_iteration a)) 0) as [H1 H2].
  cbn [Nat.mul Z.of_nat Nat.add] in H1, H2.
  eexists. split; [rewrite H2; reflexivity|exact H1].
Qed.

Lemma train_batches_app (a : Args) (it : nat) (l1 l2 : list nat) :
  forall s,
    fst (train_batches a it (l1 ++ l2) s)
    = (fst (train_batches a it l1 s)
       ++ fst (train_batches a it l2 (s + Z.of_nat (length l1))))%list.
Proof.
  induction l1 as [|b l1 IH]; intro s; cbn [app train_batches length].
  - cbn [fst app Z.of_nat]. rewrite Z.add_0_r. reflexivity.
  - specialize (IH (s + 1)%Z).
    destruct (train_batches a it (l1 ++ l2) (s + 1)) as [e1 s1].
    destruct (train_batches a it l1 (s + 1)) as [e2 s2].
    cbn [fst] in *. rewrite IH, app_assoc.
    replace (s + 1 + Z.of_nat (length l1))%Z
      with (s + Z.of_nat (S (length l1)))%Z by lia.
    reflexivity.
Qed.

Lemma hundredth (n : Z) :
  (0 <= n)%Z ->
  ((n + 1) / 100
   = n / 100 + (if (n + 1) mod 100 =? 0 then 1 else 0))%Z.
Proof.
  intro H.
  pose proof (Z.div_mod n 100 ltac:(lia)) as E1.
  pose proof (Z.div_mod (n + 1) 100 ltac:(lia)) as E2.
  pose proof (Z.mod_pos_bound n 100 ltac:(lia)) as B1.
  pose proof (Z.mod_pos_bound (n + 1) 100 ltac:(lia)) as B2.
  destruct (Z.eqb_spec ((n + 1) mod 100) 0) as [E|N]; lia.
Qed.

Lemma saves_of_batches (a : Args) (it : nat) (nb : nat) :
  forall s,
    Z.of_nat (length (filter is_save
                             (fst (train_batches a it (seq 0 nb) s))))
    = (Z.of_nat nb / 100)%Z.
Proof.
  induction nb as [|nb IH]; intro s.
  - reflexivity.
  - rewrite seq_S, train_batches_app, filter_app, length_app, Nat2Z.inj_add.
    rewrite IH. cbn [Nat.add train_batches train_batch fst app].
    rewrite Nat2Z.inj_succ, <- Z.add_1_r, (hundredth (Z.of_nat nb)) by lia.
    destruct ((Z.of_nat nb + 1) mod 100 =? 0)%Z; reflexivity.
Qed.

Lemma saves_of_iteration (a : Args) (nb it : nat) (s : Z) :
  length (filter is_save (fst (train_iteration a nb it s)))
  = (nb / 100 + 1)%nat.
Proof.
  unfold train_iteration.
  pose proof (saves_of_batches a it nb s) as H.
  destruct (train_batches a it (seq 0 nb) s) as [evs s'].
  cbn [fst] in *. rewrite filter_app, length_app.
  cbn [filter is_save length].
  apply Nat2Z.inj. rewrite Nat2Z.inj_add, H, Nat2Z.inj_add, Nat2Z.inj_div.
  reflexivity.
Qed.

Lemma saves_of_loop (a : Args) (nb : nat) (its : list nat) :
  forall s,
    length (filter is_save (fst (training_loop a nb its s)))
    = (length its * (nb / 100 + 1))%nat.
Proof.
  induction its as [|it rest IH]; intro s; cbn [training_loop].
  - reflexivity.
  - pose proof (saves_of_iteration a nb it s) as H.
    destruct (train_iteration a nb it s) as [evs s1].
    specialize (IH s1).
    destruct (training_loop a nb rest s1) as [evs' s2].
    cbn [fst length] in *. rewrite filter_app, length_app, H, IH. lia.
Qed.

(** X20. The number of snapshots of a run: in each iteration one per full
    hundred of batches and one at its end. *)
Theorem snapshots_of_a_run (a : Args) (num_batches : nat) :
  num_batches <> 0%nat ->
  length (filter is_save
                 (fst (training_loop_checked
                         a num_batches (range (total_iteration a)) 0)))
  = (Z.to_nat (total_iteration a) * (num_batches / 100 + 1))%nat.
Proof.
  intro Hnb. rewrite (training_loop_checked_batches a num_batches _ Hnb).
  cbn [fst]. rewrite saves_of_loop. unfold range. rewrite length_seq.
  reflexivity.
Qed.

(** *** The run on the sample environments *)



Lemma first_bad_file_ends_main_witness :
  main_checked sample_args grey_world
  = ([Mkdir "snapshot"; Load "data/0.png"; Load "data/1.png"],
     Raise NotImplementedError).
Proof.
  refine (proj1 (first_bad_file_ends_main
                   sample_args grey_world ["data/0.png"%string]
                   "data/1.png"%string ["data/2.png"%string]
                   NotImplementedError _ _ _ _)).
  - left. reflexivity.
  - reflexivity.
  - repeat constructor. exists sample_image.
    split; [reflexivity|left; reflexivity].
  - right. exists (mkArray [4; 4]%nat (fun _ => 9)).
    split; [reflexivity|]. split; [discriminate|].
    split; [discriminate|reflexivity].
Defined.

Lemma empty_iterator_ends_main_witness :
  main_checked sample_args (two_files_world 0)
  = ([Mkdir "snapshot"; Load "data/0.png"; Load "data/1.png";
      SaveHyperparams "snapshot"; NewGlow "snapshot"; NewOptimizer],
     Raise ZeroDivisionError).
Proof.
  refine (proj1 (empty_iterator_ends_main
                   sample_args (two_files_world 0) _ _ _)).
  - reflexivity.
  - reflexivity.
Defined.


Lemma training_steps_are_consecutive_witness :
  exists tr,
    training_loop_checked sample_args 3 (range (total_iteration sample_args)) 0
    = (tr, Ok 6%Z) /\
    filter (fun e => negb (is_save e)) tr
    = [Step 0 0 0; Step 0 1 1; Step 0 2 2; Summary 0;
       Step 1 0 3; Step 1 1 4; Step 1 2 5; Summary 1].
Proof.
  destruct (training_steps_are_consecutive sample_args 3 ltac:(discriminate))
    as (tr & H1 & H2).
  exists tr. split; [exact H1|exact H2].
Defined.

Lemma snapshots_of_a_run_witness :
  length (filter is_save
                 (fst (training_loop_checked
                         sample_args 250
                         (range (total_iteration sample_args)) 0)))
  = 6%nat.
Proof.
  exact (snapshots_of_a_run sample_args 250 ltac:(discriminate)).
Defined.

End ScriptTheory.


(** ** The loss in bits per dimension *)

Module LossShape.

Import Loss.

Section Bits.

Local Open Scope R_scope.

Variable Tensor : Type.
Variable gaussian_nll : Tensor -> Tensor -> Tensor -> R.
Variable gaussian_kl_divergence : Tensor -> Tensor -> R.

Lemma ln_2_pos : 0 < ln 2.
Proof.
  rewrite <- ln_1. apply ln_increasing; Lra.lra.
Qed.

(** The loss with its two passes over the latent variables summed up. *)
Lemma batch_loss_sums (regularize_z : bool)
      (batch_size num_bits_x num_pixels : Z)
      (fz : list (Tensor * Tensor * Tensor)) (logdet : R) :
  batch_loss Tensor gaussian_nll gaussian_kl_divergence
             regularize_z batch_size num_bits_x num_pixels fz logdet
  = ((sum_nll Tensor gaussian_nll fz
      + (if regularize_z
         then sum_kld Tensor gaussian_kl_divergence fz else 0))
       / IZR batch_size
     - (logdet - ln (powerRZ 2 num_bits_x) * IZR num_pixels))
    / (ln 2 * IZR num_pixels).
Proof.
  unfold batch_loss. rewrite LossTheory.fold_accumulate.
  rewrite !Rplus_0_l. reflexivity.
Qed.

(** X21. The correction of the log-determinant for the quantization,
    [log(num_bins_x) * num_pixels], amounts to exactly [num_bits_x] in
    the loss: the loss is the negative log-likelihood of the data in bits
    per dimension, plus the number of bits of a pixel. *)
Theorem loss_counts_the_bits (regularize_z : bool)
        (batch_size num_bits_x num_pixels : Z)
        (fz : list (Tensor * Tensor * Tensor)) (logdet : R) :
  num_pixels <> 0%Z ->
  batch_loss Tensor gaussian_nll gaussian_kl_divergence
             regularize_z batch_size num_bits_x num_pixels fz logdet
  = ((sum_nll Tensor gaussian_nll fz
      + (if regularize_z
         then sum_kld Tensor gaussian_kl_divergence fz else 0))
       / IZR batch_size
     - logdet)
    / (ln 2 * IZR num_pixels)
    + IZR num_bits_x.
Proof.
  intro HP. rewrite batch_loss_sums.
  rewrite powerRZ_Rpower by Lra.lra. rewrite ln_Rpower.
  set (x := (sum_nll Tensor gaussian_nll fz + _) / IZR batch_size).
  assert (Hp : IZR num_pixels <> 0) by (apply not_0_IZR; exact HP).
  pose proof ln_2_pos as H2.
  field. split; [exact Hp|Lra.lra].
Qed.

Lemma Rsum_permutation (l l' : list R) :
  Permutation l l' -> Rsum l = Rsum l'.
Proof.
  unfold Rsum. induction 1 as [|x l l' _ IH|x y l|l l' l'' _ IH1 _ IH2];
    cbn [fold_right].
  - reflexivity.
  - rewrite IH. reflexivity.
  - ring.
  - rewrite IH1. exact IH2.
Qed.

(** X22. The loss does not depend on the order in which the model hands over
    its latent variables. *)
Theorem loss_ignores_the_order (regularize_z : bool)
        (batch_size num_bits_x num_pixels : Z)
        (fz fz' : list (Tensor * Tensor * Tensor)) (logdet : R) :
  Permutation fz fz' ->
  batch_loss Tensor gaussian_nll gaussian_kl_divergence
             regularize_z batch_size num_bits_x num_pixels fz logdet
  = batch_loss Tensor gaussian_nll gaussian_kl_divergence
               regularize_z batch_size num_bits_x num_pixels fz' logdet.
Proof.
  intro H. rewrite !batch_loss_sums.
  assert (Hn : sum_nll Tensor gaussian_nll fz
               = sum_nll Tensor gaussian_nll fz').
  { unfold sum_nll. apply Rsum_permutation, Permutation_map, H. }
  assert (Hk : sum_kld Tensor gaussian_kl_divergence fz
               = sum_kld Tensor gaussian_kl_divergence fz').
  { unfold sum_kld. apply Rsum_permutation, Permutation_map, H. }
  rewrite Hn, Hk. reflexivity.
Qed.

End Bits.

Lemma loss_counts_the_bits_witness :
  (batch_loss R (fun zi _ _ => zi) (fun mean _ => mean)
              true 2 5 12 [(1, 2, 3); (4, 5, 6)] 7
   = ((sum_nll R (fun zi _ _ => zi) [(1, 2, 3); (4, 5, 6)]
       + sum_kld R (fun mean _ => mean) [(1, 2, 3); (4, 5, 6)])
        / IZR 2
      - 7)
     / (ln 2 * IZR 12)
     + IZR 5)%R.
Proof.
  exact (loss_counts_the_bits R (fun zi _ _ => zi) (fun mean _ => mean)
           true 2 5 12 [(1, 2, 3); (4, 5, 6)]%R 7%R ltac:(discriminate)).
Defined.

Lemma loss_ignores_the_order_witness :
  batch_loss R (fun zi _ _ => zi) (fun mean _ => mean)
             true 2 5 12 [(1, 2, 3); (4, 5, 6)]%R 7%R
  = batch_loss R (fun zi _ _ => zi) (fun mean _ => mean)
               true 2 5 12 [(4, 5, 6); (1, 2, 3)]%R 7%R.
Proof.
  apply loss_ignores_the_order. apply perm_swap.
Defined.

End LossShape.


(** ** The merged latent variable *)

Module Merged.

Import Latent.

Section Fold.

Variable Array : Type.
Variable concatenate : Array -> Array -> Array.
Variable unsqueeze : Array -> Z -> Array.

(** X23. Merging goes from the last latent variable to the first: nothing is
    returned for no variable, the last is unsqueezed alone, and each
    variable before is concatenated in front of the merge of those after
    it and the whole unsqueezed once more, so that the variable at place
    [i] has been unsqueezed [i + 1] times. *)
Theorem merge_factorized_z_unfolds (factor : Z) (zi : Array)
        (rest : list Array) :
  merge_factorized_z Array concatenate unsqueeze [] factor = None /\
  merge_factorized_z Array concatenate unsqueeze (zi :: rest) factor
  = Some (unsqueeze
            (match merge_factorized_z Array concatenate unsqueeze rest factor
             with
             | None => zi
             | Some z => concatenate zi z
             end)
            factor) /\
  (merge_factorized_z Array concatenate unsqueeze rest factor = None
   <-> rest = []).
Proof.
  unfold merge_factorized_z. split; [reflexivity|]. split.
  - cbn [rev]. rewrite fold_left_app. reflexivity.
  - split.
    + destruct rest as [|z rest']; [reflexivity|].
      cbn [rev]. rewrite fold_left_app. discriminate.
    + intros ->. reflexivity.
Qed.

End Fold.

End Merged.
